(** * PlantSamplingApp: the sample resource handlers of [api/index.py]

    A shallow embedding of the five Flask handlers ([get_all_samples],
    [add_sample], [get_sample], [update_sample], [delete_sample]) and of
    [get_db_connection], together with the Python operations they rely on
    (key membership, subscripting, [json.dumps], [str] of a date).  The
    handlers are written in a small state-and-exception monad over a
    [world] that holds the relational store, the open sessions and the log
    of driver calls. *)

From Stdlib Require Import String Ascii List ZArith Lia Bool DecimalString.
Import ListNotations.
Open Scope string_scope.
Open Scope Z_scope.
Set Warnings "-register-all".

(** ** JSON-shaped Python values *)

(** The value of [request.json]: [None], [bool], [int], [float], [str],
    [list] or [dict].  A float is carried by the text [repr] prints for it;
    a character of a [str] is a code point below 256; a [dict] is the list
    of its items in insertion order (keys are distinct in a Python dict). *)
Inductive json : Type :=
| JNull
| JBool (b : bool)
| JInt (z : Z)
| JFloat (repr : string)
| JStr (s : string)
| JArr (items : list json)
| JObj (items : list (string * json)).

Module Py.

(** Exceptions the handlers can meet; [str_exn] is Python's [str(e)]. *)
Inductive exn : Type :=
| TypeError (msg : string)
| KeyError (key : string)
| DatabaseError (msg : string).

Definition str_exn (e : exn) : string :=
  match e with
  | TypeError msg => msg
  | KeyError k => "'" ++ k ++ "'"
  | DatabaseError msg => msg
  end.

Definition type_name (v : json) : string :=
  match v with
  | JNull => "NoneType"
  | JBool _ => "bool"
  | JInt _ => "int"
  | JFloat _ => "float"
  | JStr _ => "str"
  | JArr _ => "list"
  | JObj _ => "dict"
  end.

(** [k in s] on two strings: [k] occurs in [s] as a substring. *)
Fixpoint occurs (k s : string) : bool :=
  String.prefix k s ||
  match s with
  | EmptyString => false
  | String _ s' => occurs k s'
  end.

(** [dict.get]-like lookup of a key among the items of a dict. *)
Fixpoint lookup (k : string) (items : list (string * json)) : option json :=
  match items with
  | [] => None
  | (k', v) :: rest => if String.eqb k k' then Some v else lookup k rest
  end.

Definition has_key (k : string) (items : list (string * json)) : bool :=
  match lookup k items with Some _ => true | None => false end.

(** ['k' == x] for a string [k] and a JSON-shaped value [x]. *)
Definition str_eq (k : string) (x : json) : bool :=
  match x with
  | JStr s => String.eqb k s
  | _ => false
  end.

(** [k in data] for a string [k]: key membership on a dict, element
    membership on a list, substring test on a str, [TypeError] on
    anything else. *)
Definition contains (k : string) (data : json) : exn + bool :=
  match data with
  | JObj items => inr (has_key k items)
  | JArr items => inr (existsb (str_eq k) items)
  | JStr s => inr (occurs k s)
  | _ => inl (TypeError ("argument of type '" ++ type_name data ++ "' is not iterable"))
  end.

(** [data[k]] for a string [k]. *)
Definition getitem (data : json) (k : string) : exn + json :=
  match data with
  | JObj items =>
      match lookup k items with
      | Some v => inr v
      | None => inl (KeyError k)
      end
  | JArr _ => inl (TypeError "list indices must be integers or slices, not str")
  | JStr _ => inl (TypeError "string indices must be integers, not 'str'")
  | _ => inl (TypeError ("'" ++ type_name data ++ "' object is not subscriptable"))
  end.

(** [all(k in data for k in keys)]: the generator stops at the first key
    that is not in [data], and an exception of a membership test leaves. *)
Fixpoint all_in (keys : list string) (data : json) : exn + bool :=
  match keys with
  | [] => inr true
  | k :: rest =>
      match contains k data with
      | inl e => inl e
      | inr true => all_in rest data
      | inr false => inr false
      end
  end.

(** [sep.join(parts)]. *)
Fixpoint join (sep : string) (parts : list string) : string :=
  match parts with
  | [] => EmptyString
  | [p] => p
  | p :: rest => p ++ sep ++ join sep rest
  end.

Definition str_int (z : Z) : string := NilZero.string_of_int (Z.to_int z).

End Py.

(** ** [json.dumps] with its default arguments *)

Module Dumps.

Definition hex_digit (n : nat) : ascii :=
  match n with
  | 0 => "0" | 1 => "1" | 2 => "2" | 3 => "3" | 4 => "4" | 5 => "5"
  | 6 => "6" | 7 => "7" | 8 => "8" | 9 => "9" | 10 => "a" | 11 => "b"
  | 12 => "c" | 13 => "d" | 14 => "e" | _ => "f"
  end%nat%char.

Definition backslash (rest : string) : string := String (ascii_of_nat 92) rest.

(** One character of a string under [ensure_ascii=True]. *)
Definition escape_char (c : ascii) : string :=
  let n := nat_of_ascii c in
  if Nat.eqb n 34 then backslash (String c EmptyString)
  else if Nat.eqb n 92 then backslash (String c EmptyString)
  else if Nat.eqb n 10 then backslash "n"
  else if Nat.eqb n 13 then backslash "r"
  else if Nat.eqb n 9 then backslash "t"
  else if Nat.eqb n 8 then backslash "b"
  else if Nat.eqb n 12 then backslash "f"
  else if (Nat.ltb n 32 || Nat.ltb 126 n)%bool
       then backslash ("u00" ++ String (hex_digit (n / 16))
                                       (String (hex_digit (n mod 16)) EmptyString))
       else String c EmptyString.

Fixpoint escape (s : string) : string :=
  match s with
  | EmptyString => EmptyString
  | String c s' => escape_char c ++ escape s'
  end.

Definition quote (s : string) : string :=
  String (ascii_of_nat 34) (escape s ++ String (ascii_of_nat 34) EmptyString).

Definition float_text (repr : string) : string :=
  if String.eqb repr "inf" then "Infinity"
  else if String.eqb repr "-inf" then "-Infinity"
  else if String.eqb repr "nan" then "NaN"
  else repr.

Fixpoint dumps (v : json) : string :=
  match v with
  | JNull => "null"
  | JBool true => "true"
  | JBool false => "false"
  | JInt z => Py.str_int z
  | JFloat r => float_text r
  | JStr s => quote s
  | JArr items => "[" ++ Py.join ", " (map dumps items) ++ "]"
  | JObj items =>
      "{" ++ Py.join ", "
               ((fix members (l : list (string * json)) : list string :=
                   match l with
                   | [] => []
                   | (k, x) :: rest => (quote k ++ ": " ++ dumps x) :: members rest
                   end) items)
          ++ "}"
  end.

End Dumps.

(** ** The relational store *)

(** A [datetime.date], and Python's [str] of it (ISO format, zero padded). *)
Record date : Type := mkDate { year : Z; month : Z; day : Z }.

Definition pad (width : nat) (s : string) : string :=
  String.concat EmptyString (repeat "0" (width - String.length s)) ++ s.

Definition str_date (d : date) : string :=
  pad 4 (Py.str_int (year d)) ++ "-" ++ pad 2 (Py.str_int (month d))
    ++ "-" ++ pad 2 (Py.str_int (day d)).

(** Modelled from the spec: a row of the single table PLANT_SAMPLE, whose
    schema is not part of the handlers' source.  Columns follow the data
    model: [sample_id] the generated integer key, a date, three structured
    values and two integer references. *)
Record row : Type := mkRow {
  sample_id : Z;
  date_of_sampling : date;
  plant_sample_detail : json;
  sampling_location : json;
  environmental_conditions : json;
  location_id : Z;
  researcher_id : Z
}.

Inductive column : Type :=
| CDate | CDetail | CLocation | CConditions | CLocationId | CResearcherId.

Definition column_name (c : column) : string :=
  match c with
  | CDate => "date_of_sampling"
  | CDetail => "plant_sample_detail"
  | CLocation => "sampling_location"
  | CConditions => "environmental_conditions"
  | CLocationId => "location_id"
  | CResearcherId => "researcher_id"
  end.

Definition all_columns : list column :=
  [CDate; CDetail; CLocation; CConditions; CLocationId; CResearcherId].

(** Modelled from the spec: how the store and its driver convert a
    statement parameter into a value of each column type, and what the
    driver hands back for a structured column.  These conversions belong to
    the database, so the development is parametric in them; [None] is a
    rejected parameter. *)
Class StoreCodec : Type := {
  date_in : json -> option date;
  json_in : json -> option json;
  int_in : json -> option Z
}.

(** The text of the statements, as the handlers write them. *)
Module Sql.

Definition nl : string := String (ascii_of_nat 10) EmptyString.

Definition select_all : string := "SELECT * FROM PLANT_SAMPLE".

Definition insert : string :=
  "INSERT INTO PLANT_SAMPLE " ++ nl ++
  "               (date_of_sampling, plant_sample_detail, sampling_location, environmental_conditions, location_id, researcher_id)" ++ nl ++
  "               VALUES (%s, %s, %s, %s, %s, %s)" ++ nl ++
  "               RETURNING sample_id".

Definition select_one : string := "SELECT * FROM PLANT_SAMPLE WHERE sample_id = %s".

Definition delete : string := "DELETE FROM PLANT_SAMPLE WHERE sample_id = %s".

Definition update (update_fields : list string) : string :=
  "UPDATE PLANT_SAMPLE SET " ++ Py.join ", " update_fields ++ " WHERE sample_id = %s".

Definition set_term (c : column) : string := column_name c ++ " = %s".

End Sql.

Inductive stmt : Type :=
| SelectAll
| Insert
| SelectOne
| Update (cols : list column)
| Delete.

(** All sublists of a list, in order. *)
Fixpoint sublists {A : Type} (l : list A) : list (list A) :=
  match l with
  | [] => [[]]
  | x :: rest => map (cons x) (sublists rest) ++ sublists rest
  end.

(** Modelled from the spec: the store recognises the statements of the
    five operations by their text; an update names a non-empty selection of
    the six columns in canonical order.  Any other text is a syntax
    error. *)
Definition parse_sql (q : string) : option stmt :=
  if String.eqb q Sql.select_all then Some SelectAll
  else if String.eqb q Sql.insert then Some Insert
  else if String.eqb q Sql.select_one then Some SelectOne
  else if String.eqb q Sql.delete then Some Delete
  else
    match find (fun cols => String.eqb q (Sql.update (map Sql.set_term cols)))
               (filter (fun cols => negb (Nat.eqb (length cols) 0)) (sublists all_columns)) with
    | Some cols => Some (Update cols)
    | None => None
    end.

(** What a cursor holds after [execute]: the rows of a SELECT, the values
    of a RETURNING clause, or nothing; and the affected-row count. *)
Inductive result_set : Type :=
| Rows (rs : list row)
| Returning (ids : list Z)
| NoResult.

Record cursor : Type := mkCursor { results : result_set; rowcount : Z }.

Section Store.
Context {codec : StoreCodec}.

Inductive cell : Type :=
| CellDate (d : date)
| CellJson (v : json)
| CellInt (z : Z).

Definition coerce (c : column) (p : json) : option cell :=
  match c with
  | CDate => option_map CellDate (date_in p)
  | CDetail | CLocation | CConditions => option_map CellJson (json_in p)
  | CLocationId | CResearcherId => option_map CellInt (int_in p)
  end.

Fixpoint coerce_all (cols : list column) (ps : list json) : option (list (column * cell)) :=
  match cols, ps with
  | [], [] => Some []
  | c :: cols', p :: ps' =>
      match coerce c p, coerce_all cols' ps' with
      | Some x, Some rest => Some ((c, x) :: rest)
      | _, _ => None
      end
  | _, _ => None
  end.

Definition set_cell (r : row) (a : column * cell) : row :=
  match a with
  | (CDate, CellDate d) =>
      mkRow (sample_id r) d (plant_sample_detail r) (sampling_location r)
            (environmental_conditions r) (location_id r) (researcher_id r)
  | (CDetail, CellJson v) =>
      mkRow (sample_id r) (date_of_sampling r) v (sampling_location r)
            (environmental_conditions r) (location_id r) (researcher_id r)
  | (CLocation, CellJson v) =>
      mkRow (sample_id r) (date_of_sampling r) (plant_sample_detail r) v
            (environmental_conditions r) (location_id r) (researcher_id r)
  | (CConditions, CellJson v) =>
      mkRow (sample_id r) (date_of_sampling r) (plant_sample_detail r)
            (sampling_location r) v (location_id r) (researcher_id r)
  | (CLocationId, CellInt z) =>
      mkRow (sample_id r) (date_of_sampling r) (plant_sample_detail r)
            (sampling_location r) (environmental_conditions r) z (researcher_id r)
  | (CResearcherId, CellInt z) =>
      mkRow (sample_id r) (date_of_sampling r) (plant_sample_detail r)
            (sampling_location r) (environmental_conditions r) (location_id r) z
  | _ => r
  end.

Definition blank_row (id : Z) : row :=
  mkRow id (mkDate 0 0 0) JNull JNull JNull 0 0.

Definition has_id (id : Z) (r : row) : bool := Z.eqb (sample_id r) id.

Definition data_error : Py.exn := Py.DatabaseError "invalid input syntax".
Definition unique_violation : Py.exn :=
  Py.DatabaseError "duplicate key value violates unique constraint".

(** The parameter of [WHERE sample_id = %s]. *)
Definition id_param (ps : list json) : option Z :=
  match ps with
  | [JInt id] => Some id
  | _ => None
  end.

(** Modelled from the spec: what a statement does to the table as the
    session sees it ([view]) and to the id sequence ([next]).  Parameters
    are converted before any row is touched; an insert takes the next value
    of the sequence as [sample_id] and is refused when that key exists. *)
Definition store_run (s : stmt) (ps : list json) (view : list row) (next : Z)
  : (Py.exn + cursor) * list row * Z :=
  match s with
  | SelectAll =>
      match ps with
      | [] => (inr (mkCursor (Rows view) (Z.of_nat (length view))), view, next)
      | _ => (inl data_error, view, next)
      end
  | SelectOne =>
      match id_param ps with
      | Some id =>
          let found := filter (has_id id) view in
          (inr (mkCursor (Rows found) (Z.of_nat (length found))), view, next)
      | None => (inl data_error, view, next)
      end
  | Insert =>
      match coerce_all all_columns ps with
      | Some cells =>
          if existsb (has_id next) view
          then (inl unique_violation, view, next + 1)
          else (inr (mkCursor (Returning [next]) 1),
                (view ++ [fold_left set_cell cells (blank_row next)])%list, next + 1)
      | None => (inl data_error, view, next)
      end
  | Update cols =>
      match coerce_all cols (removelast ps), id_param (skipn (length cols) ps) with
      | Some cells, Some id =>
          (inr (mkCursor NoResult (Z.of_nat (length (filter (has_id id) view)))),
           map (fun r => if has_id id r then fold_left set_cell cells r else r) view,
           next)
      | _, _ => (inl data_error, view, next)
      end
  | Delete =>
      match id_param ps with
      | Some id =>
          (inr (mkCursor NoResult (Z.of_nat (length (filter (has_id id) view)))),
           filter (fun r => negb (has_id id r)) view, next)
      | None => (inl data_error, view, next)
      end
  end.

End Store.

(** ** The world of a request *)

Record response : Type := mkResponse { status : Z; body : json }.

(** Calls made to the database driver, in the order they happen. *)
Inductive event : Type :=
| EConnect (ok : bool)
| ECursor
| EExecute (query : string) (params : list json)
| ECommit
| ECloseCursor
| ECloseConn.

(** [db_up]: whether [psycopg2.connect] succeeds; [fault]: the failures of
    statement execution that do not come from the values themselves
    (constraint violation, network drop), with their message; [table]: the
    committed rows; [next_id]: the id sequence; [txn]: the table as the
    transaction of the handler's session sees it, when one is in progress;
    [open_sessions]: sessions opened and not closed; [log]: the driver
    calls so far. *)
Record world : Type := mkWorld {
  db_up : bool;
  fault : string -> list json -> option string;
  table : list row;
  next_id : Z;
  txn : option (list row);
  open_sessions : nat;
  log : list event
}.

Inductive outcome (A : Type) : Type :=
| Val (a : A)
| Ret (r : response)
| Exn (e : Py.exn).
Arguments Val {A} a.
Arguments Ret {A} r.
Arguments Exn {A} e.

(** A handler body: it reads and changes the world and either goes on with
    a value, returns a response, or raises. *)
Definition M (A : Type) : Type := world -> outcome A * world.

Definition ret {A : Type} (a : A) : M A := fun w => (Val a, w).

Definition bind {A B : Type} (c : M A) (k : A -> M B) : M B :=
  fun w =>
    match c w with
    | (Val a, w') => k a w'
    | (Ret r, w') => (Ret r, w')
    | (Exn e, w') => (Exn e, w')
    end.

Definition return_ {A : Type} (r : response) : M A := fun w => (Ret r, w).

Definition lift {A : Type} (x : Py.exn + A) : M A :=
  fun w => match x with inl e => (Exn e, w) | inr a => (Val a, w) end.

Declare Scope handler_scope.
Delimit Scope handler_scope with handler.
Notation "x <- c ;; k" := (bind c (fun x => k))
  (at level 61, c at next level, right associativity) : handler_scope.
Notation "c ;;; k" := (bind c (fun _ => k))
  (at level 61, right associativity) : handler_scope.

(** [jsonify(payload)] and [jsonify(payload), code]. *)
Definition jsonify (payload : list (string * json)) : response :=
  mkResponse 200 (JObj payload).

Definition jsonify_error (msg : string) (code : Z) : response :=
  mkResponse code (JObj [("error", JStr msg)]).

(** The [try: ... except Exception as e: return jsonify({'error': str(e)}), 500]
    around every handler body. *)
Definition handle (body : M response) (w : world) : response * world :=
  match body w with
  | (Val r, w') => (r, w')
  | (Ret r, w') => (r, w')
  | (Exn e, w') => (jsonify_error (Py.str_exn e) 500, w')
  end.

Definition record (e : event) (w : world) : world :=
  mkWorld (db_up w) (fault w) (table w) (next_id w) (txn w) (open_sessions w)
          (log w ++ [e])%list.

Inductive conn : Type := Conn.

(** [get_db_connection]: a new session, or [None] when connecting fails
    (the exception is caught and printed inside). *)
Definition get_db_connection : M (option conn) :=
  fun w =>
    if db_up w
    then (Val (Some Conn),
          mkWorld (db_up w) (fault w) (table w) (next_id w) None
                  (S (open_sessions w)) (log w ++ [EConnect true])%list)
    else (Val None, record (EConnect false) w).

Definition conn_cursor (c : conn) : M unit :=
  fun w => (Val tt, record ECursor w).

Definition conn_commit (c : conn) : M unit :=
  fun w =>
    (Val tt,
     mkWorld (db_up w) (fault w)
             (match txn w with Some view => view | None => table w end)
             (next_id w) None (open_sessions w) (log w ++ [ECommit])%list).

Definition cur_close : M unit :=
  fun w => (Val tt, record ECloseCursor w).

(** Closing a connection discards a transaction that was not committed. *)
Definition conn_close (c : conn) : M unit :=
  fun w =>
    (Val tt,
     mkWorld (db_up w) (fault w) (table w) (next_id w) None
             (Nat.pred (open_sessions w)) (log w ++ [ECloseConn])%list).

Definition syntax_error : Py.exn := Py.DatabaseError "syntax error".

Section Handlers.
Context {codec : StoreCodec}.

(** [cur.execute(query, params)]. *)
Definition cur_execute (query : string) (params : list json) : M cursor :=
  fun w =>
    let w1 := record (EExecute query params) w in
    match fault w query params with
    | Some msg => (Exn (Py.DatabaseError msg), w1)
    | None =>
        match parse_sql query with
        | None => (Exn syntax_error, w1)
        | Some s =>
            let view := match txn w with Some v => v | None => table w end in
            match store_run s params view (next_id w) with
            | (inl e, _, next') =>
                (Exn e, mkWorld (db_up w1) (fault w1) (table w1) next' (txn w1)
                                (open_sessions w1) (log w1))
            | (inr cur, view', next') =>
                (Val cur, mkWorld (db_up w1) (fault w1) (table w1) next' (Some view')
                                  (open_sessions w1) (log w1))
            end
        end
    end.

Definition fetchall (cur : cursor) : list row :=
  match results cur with Rows rs => rs | _ => [] end.

(** [cur.fetchone()] on a SELECT: the first row or [None]. *)
Definition fetchone (cur : cursor) : option row :=
  match results cur with Rows (r :: _) => Some r | _ => None end.

(** [cur.fetchone()[0]] after [INSERT ... RETURNING sample_id]. *)
Definition fetchone_0 (cur : cursor) : Py.exn + Z :=
  match results cur with
  | Returning (id :: _) => inr id
  | _ => inl (Py.TypeError "'NoneType' object is not subscriptable")
  end.

(** The JSON shape of a row in [get_all_samples] and [get_sample]. *)
Definition sample_json (sample : row) : json :=
  JObj [("sample_id", JInt (sample_id sample));
        ("date_of_sampling", JStr (str_date (date_of_sampling sample)));
        ("plant_sample_detail", plant_sample_detail sample);
        ("sampling_location", sampling_location sample);
        ("environmental_conditions", environmental_conditions sample);
        ("location_id", JInt (location_id sample));
        ("researcher_id", JInt (researcher_id sample))].

Definition connection_failed : response :=
  jsonify_error "Database connection failed" 500.

Open Scope handler_scope.

Definition get_all_samples_body : M response :=
  conn <- get_db_connection ;;
  match conn with
  | None => return_ connection_failed
  | Some conn =>
      conn_cursor conn ;;;
      cur <- cur_execute Sql.select_all [] ;;
      let samples := fetchall cur in
      cur_close ;;;
      conn_close conn ;;;
      let samples_list := map sample_json samples in
      ret (jsonify [("success", JBool true); ("data", JArr samples_list)])
  end.

Definition get_all_samples : world -> response * world :=
  handle get_all_samples_body.

Definition required_fields : list string :=
  ["date_of_sampling"; "plant_sample_detail"; "sampling_location";
   "environmental_conditions"; "location_id"; "researcher_id"].

(** [json.dumps(x)] as a parameter value: a Python [str]. *)
Definition json_dumps (x : json) : json := JStr (Dumps.dumps x).

Definition add_sample_body (data : json) : M response :=
  valid <- lift (Py.all_in required_fields data) ;;
  if negb valid then return_ (jsonify_error "Missing required fields" 400)
  else
    conn <- get_db_connection ;;
    match conn with
    | None => return_ connection_failed
    | Some conn =>
        conn_cursor conn ;;;
        p1 <- lift (Py.getitem data "date_of_sampling") ;;
        p2 <- lift (Py.getitem data "plant_sample_detail") ;;
        p3 <- lift (Py.getitem data "sampling_location") ;;
        p4 <- lift (Py.getitem data "environmental_conditions") ;;
        p5 <- lift (Py.getitem data "location_id") ;;
        p6 <- lift (Py.getitem data "researcher_id") ;;
        cur <- cur_execute Sql.insert
                 [p1; json_dumps p2; json_dumps p3; json_dumps p4; p5; p6] ;;
        sample_id <- lift (fetchone_0 cur) ;;
        conn_commit conn ;;;
        cur_close ;;;
        conn_close conn ;;;
        ret (jsonify [("success", JBool true); ("sample_id", JInt sample_id);
                      ("message", JStr "Sample added successfully")])
    end.

Definition add_sample (data : json) : world -> response * world :=
  handle (add_sample_body data).

Definition get_sample_body (sample_id : Z) : M response :=
  conn <- get_db_connection ;;
  match conn with
  | None => return_ connection_failed
  | Some conn =>
      conn_cursor conn ;;;
      cur <- cur_execute Sql.select_one [JInt sample_id] ;;
      let sample := fetchone cur in
      cur_close ;;;
      conn_close conn ;;;
      match sample with
      | None => return_ (jsonify_error "Sample not found" 404)
      | Some sample =>
          ret (jsonify [("success", JBool true); ("data", sample_json sample)])
      end
  end.

Definition get_sample (sample_id : Z) : world -> response * world :=
  handle (get_sample_body sample_id).

(** One [if key in data: update_fields.append(...); values.append(...)]
    step of [update_sample]; [ser] is the identity or [json.dumps]. *)
Definition add_field (data : json) (key : string) (ser : json -> json)
    (acc : list string * list json) : Py.exn + (list string * list json) :=
  match Py.contains key data with
  | inl e => inl e
  | inr false => inr acc
  | inr true =>
      match Py.getitem data key with
      | inl e => inl e
      | inr v => inr ((fst acc ++ [(key ++ " = %s")%string])%list, (snd acc ++ [ser v])%list)
      end
  end.

Definition plain (x : json) : json := x.

(** The six steps that build [update_fields] and [values]. *)
Definition build_update (data : json) : Py.exn + (list string * list json) :=
  match add_field data "date_of_sampling" plain ([], []) with
  | inl e => inl e
  | inr a1 =>
  match add_field data "plant_sample_detail" json_dumps a1 with
  | inl e => inl e
  | inr a2 =>
  match add_field data "sampling_location" json_dumps a2 with
  | inl e => inl e
  | inr a3 =>
  match add_field data "environmental_conditions" json_dumps a3 with
  | inl e => inl e
  | inr a4 =>
  match add_field data "location_id" plain a4 with
  | inl e => inl e
  | inr a5 => add_field data "researcher_id" plain a5
  end end end end end.

Definition update_sample_body (sample_id : Z) (data : json) : M response :=
  conn <- get_db_connection ;;
  match conn with
  | None => return_ connection_failed
  | Some conn =>
      conn_cursor conn ;;;
      built <- lift (build_update data) ;;
      let '(update_fields, values) := built in
      match update_fields with
      | [] => return_ (jsonify_error "No fields to update" 400)
      | _ =>
          let values := (values ++ [JInt sample_id])%list in
          let query := Sql.update update_fields in
          cur_execute query values ;;;
          conn_commit conn ;;;
          cur_close ;;;
          conn_close conn ;;;
          ret (jsonify [("success", JBool true);
                        ("message", JStr "Sample updated successfully")])
      end
  end.

Definition update_sample (sample_id : Z) (data : json) : world -> response * world :=
  handle (update_sample_body sample_id data).

Definition delete_sample_body (sample_id : Z) : M response :=
  conn <- get_db_connection ;;
  match conn with
  | None => return_ connection_failed
  | Some conn =>
      conn_cursor conn ;;;
      cur <- cur_execute Sql.delete [JInt sample_id] ;;
      if Z.eqb (rowcount cur) 0
      then
        cur_close ;;;
        conn_close conn ;;;
        return_ (jsonify_error "Sample not found" 404)
      else
        conn_commit conn ;;;
        cur_close ;;;
        conn_close conn ;;;
        ret (jsonify [("success", JBool true);
                      ("message", JStr "Sample deleted successfully")])
  end.

Definition delete_sample (sample_id : Z) : world -> response * world :=
  handle (delete_sample_body sample_id).

Close Scope handler_scope.

(** The store, holding the committed table, runs the statement without
    raising. *)
Definition accepted (query : string) (params : list json) (w : world) : bool :=
  match fault w query params, parse_sql query with
  | None, Some s =>
      match store_run s params (table w) (next_id w) with
      | (inr _, _, _) => true
      | (inl _, _, _) => false
      end
  | _, _ => false
  end.

End Handlers.

(** ** An example store codec

    A concrete instance of the conversions, used to run the handlers on
    concrete requests: ISO dates, JSON text, and integers as they are. *)

Module Example.

Definition digit (c : ascii) : option Z :=
  let n := nat_of_ascii c in
  if (Nat.leb 48 n && Nat.leb n 57)%bool then Some (Z.of_nat (n - 48)) else None.

Fixpoint digits (s : string) (acc : Z) : option Z :=
  match s with
  | EmptyString => Some acc
  | String c s' =>
      match digit c with
      | Some d => digits s' (10 * acc + d)
      | None => None
      end
  end.

(** [YYYY-MM-DD]. *)
Definition parse_date (p : json) : option date :=
  match p with
  | JStr s =>
      if (Nat.eqb (String.length s) 10
          && String.eqb (String.substring 4 1 s) "-"
          && String.eqb (String.substring 7 1 s) "-")%bool
      then
        match digits (String.substring 0 4 s) 0,
              digits (String.substring 5 2 s) 0,
              digits (String.substring 8 2 s) 0 with
        | Some y, Some m, Some d =>
            if ((1 <=? m) && (m <=? 12) && (1 <=? d) && (d <=? 31))%bool
            then Some (mkDate y m d) else None
        | _, _, _ => None
        end
      else None
  | _ => None
  end.

Fixpoint skip_ws (s : string) : string :=
  match s with
  | String c s' =>
      let n := nat_of_ascii c in
      if (Nat.eqb n 32 || Nat.eqb n 10 || Nat.eqb n 13 || Nat.eqb n 9)%bool
      then skip_ws s' else s
  | EmptyString => s
  end.

Definition expect (word : string) (v : json) (s : string) : option (json * string) :=
  if String.prefix word s
  then Some (v, String.substring (String.length word)
                                 (String.length s - String.length word) s)
  else None.

Definition hex_value (c : ascii) : option nat :=
  let n := nat_of_ascii c in
  if (Nat.leb 48 n && Nat.leb n 57)%bool then Some (n - 48)%nat
  else if (Nat.leb 97 n && Nat.leb n 102)%bool then Some (n - 87)%nat
  else if (Nat.leb 65 n && Nat.leb n 70)%bool then Some (n - 55)%nat
  else None.

(** The characters of a string literal after its opening quote. *)
Fixpoint string_body (s : string) : option (string * string) :=
  match s with
  | EmptyString => None
  | String c s' =>
      let n := nat_of_ascii c in
      if Nat.eqb n 34 then Some (EmptyString, s')
      else if Nat.eqb n 92 then
        match s' with
        | String e s'' =>
            let m := nat_of_ascii e in
            let simple (x : nat) :=
              match string_body s'' with
              | Some (t, rest) => Some (String (ascii_of_nat x) t, rest)
              | None => None
              end in
            if Nat.eqb m 34 then simple 34%nat
            else if Nat.eqb m 92 then simple 92%nat
            else if Nat.eqb m 47 then simple 47%nat
            else if Nat.eqb m 110 then simple 10%nat
            else if Nat.eqb m 114 then simple 13%nat
            else if Nat.eqb m 116 then simple 9%nat
            else if Nat.eqb m 98 then simple 8%nat
            else if Nat.eqb m 102 then simple 12%nat
            else if Nat.eqb m 117 then
              match s'' with
              | String h1 (String h2 (String h3 (String h4 s3))) =>
                  match hex_value h1, hex_value h2, hex_value h3, hex_value h4,
                        string_body s3 with
                  | Some 0%nat, Some 0%nat, Some a, Some b, Some (t, rest) =>
                      Some (String (ascii_of_nat (16 * a + b)) t, rest)
                  | _, _, _, _, _ => None
                  end
              | _ => None
              end
            else None
        | EmptyString => None
        end
      else if Nat.ltb n 32 then None
      else
        match string_body s' with
        | Some (t, rest) => Some (String c t, rest)
        | None => None
        end
  end.

(** The digits at the head of a string, and what follows them. *)
Fixpoint number_body (s : string) (acc : Z) (seen : bool) : option (Z * string) :=
  match s with
  | String c s' =>
      match digit c with
      | Some d => number_body s' (10 * acc + d) true
      | None => if seen then Some (acc, s) else None
      end
  | EmptyString => if seen then Some (acc, s) else None
  end.

Fixpoint value (fuel : nat) (s : string) : option (json * string) :=
  match fuel with
  | O => None
  | S fuel' =>
      match skip_ws s with
      | EmptyString => None
      | String c s' =>
          let n := nat_of_ascii c in
          if Nat.eqb n 110 then expect "null" JNull (String c s')
          else if Nat.eqb n 116 then expect "true" (JBool true) (String c s')
          else if Nat.eqb n 102 then expect "false" (JBool false) (String c s')
          else if Nat.eqb n 34 then
            match string_body s' with
            | Some (t, rest) => Some (JStr t, rest)
            | None => None
            end
          else if Nat.eqb n 45 then
            match number_body s' 0 false with
            | Some (z, rest) => Some (JInt (- z), rest)
            | None => None
            end
          else if Nat.eqb n 91 then
            match skip_ws s' with
            | String c' rest =>
                if Nat.eqb (nat_of_ascii c') 93 then Some (JArr [], rest)
                else elements fuel' s' []
            | EmptyString => None
            end
          else if Nat.eqb n 123 then
            match skip_ws s' with
            | String c' rest =>
                if Nat.eqb (nat_of_ascii c') 125 then Some (JObj [], rest)
                else members fuel' s' []
            | EmptyString => None
            end
          else
            match number_body (String c s') 0 false with
            | Some (z, rest) => Some (JInt z, rest)
            | None => None
            end
      end
  end
with elements (fuel : nat) (s : string) (acc : list json) : option (json * string) :=
  match fuel with
  | O => None
  | S fuel' =>
      match value fuel' s with
      | Some (v, rest) =>
          match skip_ws rest with
          | String c rest' =>
              if Nat.eqb (nat_of_ascii c) 44 then elements fuel' rest' (acc ++ [v])%list
              else if Nat.eqb (nat_of_ascii c) 93 then Some (JArr (acc ++ [v])%list, rest')
              else None
          | EmptyString => None
          end
      | None => None
      end
  end
with members (fuel : nat) (s : string) (acc : list (string * json)) : option (json * string) :=
  match fuel with
  | O => None
  | S fuel' =>
      match skip_ws s with
      | String q s1 =>
          if Nat.eqb (nat_of_ascii q) 34 then
            match string_body s1 with
            | Some (k, s2) =>
                match skip_ws s2 with
                | String colon s3 =>
                    if Nat.eqb (nat_of_ascii colon) 58 then
                      match value fuel' s3 with
                      | Some (v, rest) =>
                          match skip_ws rest with
                          | String c rest' =>
                              if Nat.eqb (nat_of_ascii c) 44
                              then members fuel' rest' (acc ++ [(k, v)])%list
                              else if Nat.eqb (nat_of_ascii c) 125
                                   then Some (JObj (acc ++ [(k, v)])%list, rest')
                                   else None
                          | EmptyString => None
                          end
                      | None => None
                      end
                    else None
                | EmptyString => None
                end
            | None => None
            end
          else None
      | EmptyString => None
      end
  end.

(** JSON text to a value; the whole text must be one value. *)
Definition loads (p : json) : option json :=
  match p with
  | JStr s =>
      match value (2 * String.length s + 2) s with
      | Some (v, rest) =>
          match skip_ws rest with
          | EmptyString => Some v
          | _ => None
          end
      | None => None
      end
  | _ => None
  end.

Definition integer (p : json) : option Z :=
  match p with
  | JInt z => Some z
  | _ => None
  end.

#[export] Instance codec : StoreCodec :=
  {| date_in := parse_date; json_in := loads; int_in := integer |}.

Definition no_fault : string -> list json -> option string := fun _ _ => None.

(** A reachable database with no rows, and one holding row 1. *)
Definition empty_world : world := mkWorld true no_fault [] 1 None 0 [].

Definition leaf_row : row :=
  mkRow 1 (mkDate 2024 1 1) (JObj [("type", JStr "leaf")])
        (JObj [("lat", JInt 1); ("lon", JInt 2)])
        (JObj [("humidity", JInt 80)]) 5 7.

Definition one_row_world : world := mkWorld true no_fault [leaf_row] 2 None 0 [].

(** The same database when every statement is cut by a network failure,
    and when it cannot be reached at all. *)
Definition reset : string -> list json -> option string :=
  fun _ _ => Some "server closed the connection unexpectedly".

Definition failing_world : world := mkWorld true reset [leaf_row] 2 None 0 [].

Definition unreachable_world : world := mkWorld false no_fault [leaf_row] 2 None 0 [].

Definition leaf_payload : json :=
  JObj [("date_of_sampling", JStr "2024-01-01");
        ("plant_sample_detail", JObj [("type", JStr "leaf")]);
        ("sampling_location", JObj [("lat", JInt 1); ("lon", JInt 2)]);
        ("environmental_conditions", JObj [("humidity", JInt 80)]);
        ("location_id", JInt 5);
        ("researcher_id", JInt 7)].

End Example.


(** ** Vocabulary of the properties *)

(** The recognized keys a request body supplies, as columns in canonical
    order, and the positional value the update statement carries for one. *)
Definition recognized (items : list (string * json)) : list column :=
  filter (fun c => Py.has_key (column_name c) items) all_columns.

Definition structured (c : column) : bool :=
  match c with
  | CDetail | CLocation | CConditions => true
  | _ => false
  end.

Definition value_of (items : list (string * json)) (c : column) : json :=
  match Py.lookup (column_name c) items with
  | Some v => if structured c then JStr (Dumps.dumps v) else v
  | None => JNull
  end.

(** [k in data] evaluates to [False]. *)
Definition absent (data : json) (k : string) : bool :=
  match Py.contains k data with
  | inr false => true
  | _ => false
  end.

(** No recognized key is in [data], and the membership tests do not raise. *)
Definition no_recognized_key (data : json) : bool :=
  forallb (absent data) required_fields.

(** Some required key is missing from [data]. *)
Definition missing_required_key (data : json) : bool :=
  existsb (absent data) required_fields.

(** The body is [None], a number or a boolean: not a container. *)
Definition not_container (data : json) : bool :=
  match data with
  | JNull | JBool _ | JInt _ | JFloat _ => true
  | _ => false
  end.

Definition is_execute (e : event) : bool :=
  match e with EExecute _ _ => true | _ => false end.

(** [h] leaves as many sessions open as it found. *)
Definition releases (h : world -> response * world) (w : world) : Prop :=
  open_sessions (snd (h w)) = open_sessions w.

(** The body of a handler ends without raising. *)
Definition no_exception (body : M response) (w : world) : Prop :=
  match fst (body w) with Exn _ => False | _ => True end.

(** The success envelopes of update, delete and create. *)
Definition updated : response :=
  jsonify [("success", JBool true); ("message", JStr "Sample updated successfully")].

Definition deleted : response :=
  jsonify [("success", JBool true); ("message", JStr "Sample deleted successfully")].

Definition created (id : Z) : response :=
  jsonify [("success", JBool true); ("sample_id", JInt id);
           ("message", JStr "Sample added successfully")].

Definition column_eqb (a b : column) : bool :=
  match a, b with
  | CDate, CDate | CDetail, CDetail | CLocation, CLocation
  | CConditions, CConditions | CLocationId, CLocationId
  | CResearcherId, CResearcherId => true
  | _, _ => false
  end.

(** A column that is not selected does not occur in the statement text. *)
Definition unnamed_columns_absent (cols : list column) : bool :=
  forallb (fun c => existsb (column_eqb c) cols
                    || negb (Py.occurs (column_name c) (Sql.update (map Sql.set_term cols))))
          all_columns.

(** The store reads an update built from [cols] as an update of [cols]. *)
Definition update_recognized (cols : list column) : bool :=
  match cols, parse_sql (Sql.update (map Sql.set_term cols)) with
  | [], None => true
  | _ :: _, Some (Update cols') =>
      Nat.eqb (length cols) (length cols')
      && forallb (fun p => column_eqb (fst p) (snd p)) (combine cols cols')
  | _, _ => false
  end.

(** More vocabulary: the shape of answers and of the driver calls of one
    request. *)
Definition is_connect (e : event) : bool :=
  match e with EConnect _ => true | _ => false end.

Definition is_commit (e : event) : bool :=
  match e with ECommit => true | _ => false end.

(** A success envelope: status 200 and [success: true] in the body. *)
Definition is_success (r : response) : Prop :=
  status r = 200 /\ Py.getitem (body r) "success" = inr (JBool true).

(** An error envelope [{error: msg}] with one of the given status codes. *)
Definition is_error (codes : list Z) (r : response) : Prop :=
  exists msg code, In code codes /\ r = jsonify_error msg code.

(** The driver calls of one request: at most one connection attempt and
    one statement, and a commit only in a request that answers 200 after
    its one statement. *)
Definition one_statement (w : world) (r : response * world) : Prop :=
  exists evs,
    log (snd r) = (log w ++ evs)%list
    /\ (length (filter is_connect evs) <= 1)%nat
    /\ (length (filter is_execute evs) <= 1)%nat
    /\ (existsb is_commit evs = true ->
        status (fst r) = 200 /\ length (filter is_execute evs) = 1%nat).

(** The ids of the rows of a table, in order. *)
Definition ids (t : list row) : list Z := map sample_id t.

(** The value a row holds in a column. *)
Definition cell_of (c : column) (r : row) : cell :=
  match c with
  | CDate => CellDate (date_of_sampling r)
  | CDetail => CellJson (plant_sample_detail r)
  | CLocation => CellJson (sampling_location r)
  | CConditions => CellJson (environmental_conditions r)
  | CLocationId => CellInt (location_id r)
  | CResearcherId => CellInt (researcher_id r)
  end.

(** The body is a list or a string: [in] is defined on it, subscripting by
    a string is not. *)
Definition is_sequence (data : json) : bool :=
  match data with
  | JArr _ | JStr _ => true
  | _ => false
  end.

(** The two bodies hold the same values under the six keys. *)
Definition same_fields (items items' : list (string * json)) : Prop :=
  forall k, In k required_fields -> Py.lookup k items = Py.lookup k items'.

(** ** Properties of the handlers *)

Arguments parse_sql : simpl never.

Ltac run :=
  unfold update_sample, add_sample, get_sample, delete_sample, get_all_samples,
    handle, update_sample_body, add_sample_body, get_sample_body,
    delete_sample_body, get_all_samples_body, bind, get_db_connection, lift,
    return_, ret, conn_cursor, conn_commit, cur_close, conn_close, record.

Section Properties.
Context {codec : StoreCodec}.

(** *** Python operations on the request body *)

Lemma absent_contains (data : json) (k : string) :
  absent data k = true -> Py.contains k data = inr false.
Proof.
  unfold absent. destruct (Py.contains k data) as [e|[|]]; congruence.
Qed.

Lemma contains_total (data : json) (k : string) (b : bool) :
  Py.contains k data = inr b ->
  forall k', exists b', Py.contains k' data = inr b'.
Proof.
  destruct data; simpl; intros H k'; try discriminate; eauto.
Qed.

Lemma all_in_missing (data : json) (keys : list string) :
  existsb (absent data) keys = true -> Py.all_in keys data = inr false.
Proof.
  induction keys as [|k0 keys IH]; simpl; [discriminate|].
  intros H. apply orb_true_iff in H.
  destruct (absent data k0) eqn:E0.
  - now rewrite (absent_contains _ _ E0).
  - destruct H as [H|H]; [discriminate|].
    apply existsb_exists in H as Hk. destruct Hk as [k [_ Hk]].
    destruct (contains_total _ _ _ (absent_contains _ _ Hk) k0) as [b0 Hb0].
    rewrite Hb0. destruct b0; [now apply IH|reflexivity].
Qed.

Lemma all_in_obj (items : list (string * json)) (keys : list string) :
  (forall k, In k keys -> Py.has_key k items = true) ->
  Py.all_in keys (JObj items) = inr true.
Proof.
  induction keys as [|k keys IH]; intros H; [reflexivity|].
  simpl. rewrite (H k) by (simpl; tauto).
  apply IH. intros k' Hk'. apply H. simpl; tauto.
Qed.

Lemma getitem_obj (items : list (string * json)) (k : string) (v : json) :
  Py.lookup k items = Some v -> Py.getitem (JObj items) k = inr v.
Proof. intros H. simpl. now rewrite H. Qed.

(** *** Building the update statement *)

Lemma add_field_absent (data : json) (key : string) (ser : json -> json) acc :
  Py.contains key data = inr false -> add_field data key ser acc = inr acc.
Proof. intros H. unfold add_field. now rewrite H. Qed.

Lemma build_update_none (data : json) :
  no_recognized_key data = true -> build_update data = inr ([], []).
Proof.
  unfold no_recognized_key. rewrite forallb_forall. intros H.
  unfold build_update.
  rewrite !add_field_absent; try reflexivity;
    apply absent_contains, H; simpl; tauto.
Qed.

Lemma add_field_obj (items : list (string * json)) (key : string) ser acc :
  add_field (JObj items) key ser acc =
  inr match Py.lookup key items with
      | Some v => ((fst acc ++ [(key ++ " = %s")%string])%list, (snd acc ++ [ser v])%list)
      | None => acc
      end.
Proof.
  unfold add_field, Py.contains, Py.has_key, Py.getitem.
  destruct (Py.lookup key items); reflexivity.
Qed.

Lemma build_update_obj (items : list (string * json)) :
  build_update (JObj items) =
  inr (map Sql.set_term (recognized items), map (value_of items) (recognized items)).
Proof.
  unfold build_update. rewrite !add_field_obj.
  unfold recognized, value_of, Py.has_key, all_columns, json_dumps, plain.
  destruct (Py.lookup "date_of_sampling" items) eqn:E1;
  destruct (Py.lookup "plant_sample_detail" items) eqn:E2;
  destruct (Py.lookup "sampling_location" items) eqn:E3;
  destruct (Py.lookup "environmental_conditions" items) eqn:E4;
  destruct (Py.lookup "location_id" items) eqn:E5;
  destruct (Py.lookup "researcher_id" items) eqn:E6;
  simpl; rewrite ?E1, ?E2, ?E3, ?E4, ?E5, ?E6; simpl;
  rewrite ?E1, ?E2, ?E3, ?E4, ?E5, ?E6; reflexivity.
Qed.

Lemma filter_sublist {A : Type} (f : A -> bool) (l : list A) :
  In (filter f l) (sublists l).
Proof.
  induction l as [|x l IH]; simpl.
  - now left.
  - apply in_or_app. destruct (f x).
    + left. now apply in_map.
    + now right.
Qed.

Lemma recognized_sublist (items : list (string * json)) :
  In (recognized items) (sublists all_columns).
Proof. apply filter_sublist. Qed.

Lemma column_eqb_eq (a b : column) : column_eqb a b = true -> a = b.
Proof. destruct a, b; simpl; congruence. Qed.

Lemma unnamed_columns_absent_all :
  forallb unnamed_columns_absent (sublists all_columns) = true.
Proof. vm_compute. reflexivity. Qed.

Lemma update_recognized_all :
  forallb update_recognized (sublists all_columns) = true.
Proof. vm_compute. reflexivity. Qed.

Lemma unselected_column_absent (items : list (string * json)) (c : column) :
  ~ In c (recognized items) ->
  Py.occurs (column_name c) (Sql.update (map Sql.set_term (recognized items))) = false.
Proof.
  intros Hn.
  pose proof unnamed_columns_absent_all as H.
  rewrite forallb_forall in H. specialize (H _ (recognized_sublist items)).
  unfold unnamed_columns_absent in H. rewrite forallb_forall in H.
  assert (Hc : In c all_columns) by (destruct c; simpl; tauto).
  specialize (H c Hc). apply orb_true_iff in H. destruct H as [H|H].
  - exfalso. apply Hn. apply existsb_exists in H. destruct H as [c' [Hin Heq]].
    now rewrite (column_eqb_eq _ _ Heq).
  - now apply negb_true_iff in H.
Qed.

Lemma combine_eqb (l l' : list column) :
  length l = length l' ->
  forallb (fun p => column_eqb (fst p) (snd p)) (combine l l') = true ->
  l = l'.
Proof.
  revert l'. induction l as [|a l IH]; intros [|b l'] Hlen H; simpl in *;
    try discriminate; [reflexivity|].
  apply andb_true_iff in H. destruct H as [Hab H].
  f_equal; [now apply column_eqb_eq|]. apply IH; [congruence|exact H].
Qed.

(** The store reads the statement text of an update back as an update of
    the columns the request supplied. *)
Lemma update_statement_recognized (items : list (string * json)) :
  recognized items <> [] ->
  parse_sql (Sql.update (map Sql.set_term (recognized items)))
  = Some (Update (recognized items)).
Proof.
  intros Hne. pose proof update_recognized_all as H.
  rewrite forallb_forall in H. specialize (H _ (recognized_sublist items)).
  unfold update_recognized in H.
  destruct (recognized items) as [|c cols]; [congruence|].
  destruct (parse_sql _) as [[| | |cols'|]|]; try discriminate.
  apply andb_true_iff in H. destruct H as [Hlen H].
  apply Nat.eqb_eq in Hlen. now rewrite (combine_eqb _ _ Hlen H).
Qed.

Lemma NoDup_filter {A : Type} (f : A -> bool) (l : list A) :
  NoDup l -> NoDup (filter f l).
Proof.
  induction 1 as [|x l Hx Hl IH]; simpl.
  - constructor.
  - destruct (f x); [constructor|]; auto.
    intros Hin. apply Hx. apply filter_In in Hin. tauto.
Qed.

Lemma NoDup_all_columns : NoDup all_columns.
Proof.
  unfold all_columns.
  repeat (constructor; [simpl; intuition discriminate|]). constructor.
Qed.

(** *** The statements the store is sent *)

Lemma parse_insert : parse_sql Sql.insert = Some Insert.
Proof. vm_compute. reflexivity. Qed.

Lemma parse_select_one : parse_sql Sql.select_one = Some SelectOne.
Proof. vm_compute. reflexivity. Qed.

Lemma parse_delete : parse_sql Sql.delete = Some Delete.
Proof. vm_compute. reflexivity. Qed.

Lemma rowcount_zero {A : Type} (l : list A) :
  Z.eqb (Z.of_nat (length l)) 0 = match l with [] => true | _ => false end.
Proof. destruct l; reflexivity. Qed.

Lemma filter_none {A : Type} (f : A -> bool) (l : list A) :
  existsb f l = false -> filter f l = [].
Proof.
  induction l as [|x l IH]; simpl; [reflexivity|].
  destruct (f x); simpl; [discriminate|exact IH].
Qed.

Lemma coerce_insert (p1 p2 p3 p4 p5 p6 : json) :
  coerce_all all_columns [p1; p2; p3; p4; p5; p6] =
  match date_in p1, json_in p2, json_in p3, json_in p4, int_in p5, int_in p6 with
  | Some d, Some v2, Some v3, Some v4, Some z5, Some z6 =>
      Some [(CDate, CellDate d); (CDetail, CellJson v2); (CLocation, CellJson v3);
            (CConditions, CellJson v4); (CLocationId, CellInt z5);
            (CResearcherId, CellInt z6)]
  | _, _, _, _, _, _ => None
  end.
Proof.
  simpl. destruct (date_in p1), (json_in p2), (json_in p3), (json_in p4),
    (int_in p5), (int_in p6); reflexivity.
Qed.

Lemma coerce_all_length (cols : list column) (ps : list json) cells :
  coerce_all cols ps = Some cells -> length ps = length cols.
Proof.
  revert ps cells. induction cols as [|c cols IH]; intros [|p ps] cells; simpl;
    try discriminate; [reflexivity|].
  destruct (coerce c p); [|discriminate].
  destruct (coerce_all cols ps) eqn:E; [|discriminate].
  intros _. f_equal. eapply IH, E.
Qed.

(** An update whose values the store can convert runs, whatever rows the
    session sees: it reports how many rows have the id and changes those. *)
Lemma store_run_update (cols : list column) (values : list json) (id : Z)
    (view : list row) (next : Z) cells :
  coerce_all cols values = Some cells ->
  store_run (Update cols) (values ++ [JInt id]) view next
  = (inr (mkCursor NoResult (Z.of_nat (length (filter (has_id id) view)))),
     map (fun r => if has_id id r then fold_left set_cell cells r else r) view,
     next).
Proof.
  intros H. unfold store_run.
  rewrite removelast_last, H.
  rewrite <- (coerce_all_length _ _ _ H), skipn_app, skipn_all, Nat.sub_diag.
  reflexivity.
Qed.

(** One [cur.execute]: the fault, the syntax error and the store's
    refusal all leave through the exception handler. *)
Ltac run_execute :=
  unfold cur_execute; cbn [fault table next_id txn db_up log open_sessions];
  match goal with
  | |- context [fault ?w ?q ?ps] => destruct (fault w q ps)
  end; [cbn; tauto|];
  match goal with
  | |- context [parse_sql ?q] => destruct (parse_sql q) as [s|]
  end; [|cbn; tauto];
  match goal with
  | |- context [store_run ?s ?ps ?v ?n] =>
      destruct (store_run s ps v n) as [[[e|cur] view] next]
  end; [cbn; tauto|].

(** *** Update *)

(** C1: for every update request whose body is an object with at least one
    of the six recognized keys, the update never answers not-found; and
    once its session is acquired, the statement is not cut by a fault and
    the store can convert the supplied values, it answers the success
    envelope [{success: true, message}].  No premise relates [sample_id]
    to the rows of the table: the answer is the same whether or not a row
    matched. *)
Theorem update_succeeds_regardless_of_match
    (sample_id : Z) (items : list (string * json)) (w : world) :
  recognized items <> [] ->
  status (fst (update_sample sample_id (JObj items) w)) <> 404
  /\ (db_up w = true ->
      fault w (Sql.update (map Sql.set_term (recognized items)))
              (map (value_of items) (recognized items) ++ [JInt sample_id]) = None ->
      coerce_all (recognized items) (map (value_of items) (recognized items)) <> None ->
      fst (update_sample sample_id (JObj items) w) = updated).
Proof.
  intros Hne. run. destruct (db_up w) eqn:Hup; simpl.
  2:{ split; [discriminate|intros; discriminate]. }
  rewrite build_update_obj. simpl.
  pose proof (update_statement_recognized items Hne) as Hparse.
  destruct (map Sql.set_term (recognized items)) as [|f fs] eqn:Ef.
  { exfalso. apply Hne. destruct (recognized items); [reflexivity|discriminate]. }
  unfold cur_execute. simpl.
  set (ps := (map (value_of items) (recognized items) ++ [JInt sample_id])%list).
  destruct (fault w (Sql.update (f :: fs)) ps); simpl.
  { split; [discriminate|intros; discriminate]. }
  rewrite Hparse. cbv beta iota.
  destruct (coerce_all (recognized items) (map (value_of items) (recognized items)))
    as [cells|] eqn:Ec.
  - unfold ps. rewrite (store_run_update _ _ _ _ _ _ Ec). simpl.
    split; [discriminate|reflexivity].
  - destruct (store_run _ ps (table w) (next_id w)) as [[[e|c] v] n]; simpl;
      (split; [discriminate|]); intros _ _ H; now elim H.
Qed.

(** C2: for every update request whose body holds none of the six
    recognized keys, no field list is built, the driver sees the session
    being opened and nothing else (no statement is executed, nothing is
    committed, the table and the id sequence are untouched), and with the
    session acquired the answer is the client error "No fields to
    update". *)
Theorem update_without_fields_is_rejected (sample_id : Z) (data : json) (w : world) :
  no_recognized_key data = true ->
  let r := update_sample sample_id data w in
  build_update data = inr ([], [])
  /\ (db_up w = true -> fst r = jsonify_error "No fields to update" 400)
  /\ log (snd r) = (log w ++ if db_up w then [EConnect true; ECursor]
                             else [EConnect false])%list
  /\ table (snd r) = table w
  /\ next_id (snd r) = next_id w
  /\ txn (snd r) = (if db_up w then None else txn w).
Proof.
  intros H r. pose proof (build_update_none data H) as Hb.
  split; [exact Hb|]. subst r. run.
  destruct (db_up w); simpl.
  - rewrite Hb. simpl. rewrite <- app_assoc. repeat split; reflexivity.
  - repeat split; try reflexivity. discriminate.
Qed.

(** C5: for an update request supplying a non-empty selection of the
    recognized keys, [build_update] yields one [column = %s] term and one
    value per supplied key and none for the others, both lists in the
    canonical column order and aligned position by position; the three
    structured values are serialized with [json.dumps]; no column outside
    the selection occurs in the statement text; and the statement is
    executed with the id appended as the last positional value. *)
Theorem update_statement_covers_supplied_keys
    (sample_id : Z) (items : list (string * json)) (w : world) :
  recognized items <> [] ->
  db_up w = true ->
  let cols := recognized items in
  let update_fields := map Sql.set_term cols in
  let values := map (value_of items) cols in
  build_update (JObj items) = inr (update_fields, values)
  /\ cols = filter (fun c => Py.has_key (column_name c) items) all_columns
  /\ NoDup cols
  /\ (forall c, In c cols <-> Py.has_key (column_name c) items = true)
  /\ length update_fields = length values
  /\ combine update_fields values
     = map (fun c => (column_name c ++ " = %s", value_of items c)) cols
  /\ (forall c v, In c cols -> Py.lookup (column_name c) items = Some v ->
        value_of items c = if structured c then JStr (Dumps.dumps v) else v)
  /\ (forall c, ~ In c cols ->
        Py.occurs (column_name c) (Sql.update update_fields) = false)
  /\ exists rest,
       log (snd (update_sample sample_id (JObj items) w))
       = (log w ++ [EConnect true; ECursor;
                    EExecute (Sql.update update_fields) (values ++ [JInt sample_id])]
                ++ rest)%list
       /\ existsb is_execute rest = false.
Proof.
  intros Hne Hup cols update_fields values.
  split; [apply build_update_obj|].
  split; [reflexivity|].
  split; [apply NoDup_filter, NoDup_all_columns|].
  split.
  { intros c. unfold cols, recognized. rewrite filter_In.
    split; [tauto|]. intros H; split; [destruct c; simpl; tauto|exact H]. }
  split; [unfold update_fields, values; now rewrite !length_map|].
  split.
  { unfold update_fields, values. generalize cols. intros l.
    induction l as [|c l IH]; simpl; [reflexivity|]. now rewrite IH. }
  split.
  { intros c v _ Hv. unfold value_of. now rewrite Hv. }
  split; [apply unselected_column_absent|].
  run. rewrite Hup. simpl. rewrite build_update_obj. simpl.
  fold cols. fold update_fields. fold values.
  destruct update_fields as [|f fs] eqn:Ef.
  { exfalso. apply Hne. fold cols. destruct cols; [reflexivity|discriminate]. }
  rewrite <- Ef. unfold cur_execute. simpl.
  set (q := Sql.update update_fields). set (ps := (values ++ [JInt sample_id])%list).
  destruct (fault w q ps); simpl.
  { exists []. rewrite <- !app_assoc. split; reflexivity. }
  destruct (parse_sql q); simpl.
  2:{ exists []. rewrite <- !app_assoc. split; reflexivity. }
  destruct (store_run s ps (table w) (next_id w)) as [[[e|c] v] n]; simpl.
  { exists []. rewrite <- !app_assoc. split; reflexivity. }
  exists [ECommit; ECloseCursor; ECloseConn]. rewrite <- !app_assoc. split; reflexivity.
Qed.

(** C4: an update request with the body [{}] fails validation only after
    the session was asked for: with the store reachable the session and a
    cursor are opened before the "No fields to update" reply and the
    session stays open; with the store unreachable the reply is the server
    error of the connection.  ([add_sample] validates before it
    connects.) *)
Theorem update_validates_after_acquiring (sample_id : Z) (w : world) :
  let r := update_sample sample_id (JObj []) w in
  fst r = (if db_up w then jsonify_error "No fields to update" 400
           else connection_failed)
  /\ log (snd r) = (log w ++ if db_up w then [EConnect true; ECursor]
                             else [EConnect false])%list
  /\ open_sessions (snd r) = (if db_up w then S (open_sessions w)
                              else open_sessions w).
Proof.
  intros r. subst r. run. destruct (db_up w); simpl.
  - rewrite <- app_assoc. repeat split; reflexivity.
  - repeat split; reflexivity.
Qed.

(** *** Create *)

(** C6: for every create request from which one of the six required keys
    is missing, the answer is the client error "Missing required fields",
    the world is left exactly as it was (no driver call, no new row), and
    the answer carries no [sample_id]. *)
Theorem create_missing_field_is_rejected (data : json) (w : world) :
  missing_required_key data = true ->
  add_sample data w = (jsonify_error "Missing required fields" 400, w)
  /\ Py.getitem (body (fst (add_sample data w))) "sample_id"
     = inl (Py.KeyError "sample_id").
Proof.
  intros H. run. rewrite (all_in_missing data required_fields H). simpl.
  split; reflexivity.
Qed.

(** C8: for a create request with all six keys and the session acquired,
    the handler executes one statement, the INSERT with its RETURNING
    clause, with the three structured values serialized one by one.  When
    the store runs it, the answer is [{success: true, sample_id, message}]
    with the id the store generated, and the committed table has grown by
    the one row with that id; when it fails, the answer is a server error
    without an id, nothing is committed and the table is as before. *)
Theorem create_inserts_atomically
    (items : list (string * json)) (w : world) (p1 p2 p3 p4 p5 p6 : json) :
  Py.lookup "date_of_sampling" items = Some p1 ->
  Py.lookup "plant_sample_detail" items = Some p2 ->
  Py.lookup "sampling_location" items = Some p3 ->
  Py.lookup "environmental_conditions" items = Some p4 ->
  Py.lookup "location_id" items = Some p5 ->
  Py.lookup "researcher_id" items = Some p6 ->
  db_up w = true ->
  let params := [p1; JStr (Dumps.dumps p2); JStr (Dumps.dumps p3);
                 JStr (Dumps.dumps p4); p5; p6] in
  let r := add_sample (JObj items) w in
  (accepted Sql.insert params w = true ->
     fst r = created (next_id w)
     /\ (exists d v2 v3 v4 z5 z6,
           date_in p1 = Some d
           /\ json_in (JStr (Dumps.dumps p2)) = Some v2
           /\ json_in (JStr (Dumps.dumps p3)) = Some v3
           /\ json_in (JStr (Dumps.dumps p4)) = Some v4
           /\ int_in p5 = Some z5 /\ int_in p6 = Some z6
           /\ table (snd r) = (table w ++ [mkRow (next_id w) d v2 v3 v4 z5 z6])%list)
     /\ length (table (snd r)) = S (length (table w))
     /\ log (snd r) = (log w ++ [EConnect true; ECursor; EExecute Sql.insert params;
                                 ECommit; ECloseCursor; ECloseConn])%list)
  /\ (accepted Sql.insert params w = false ->
     (exists msg, fst r = jsonify_error msg 500)
     /\ table (snd r) = table w
     /\ log (snd r) = (log w ++ [EConnect true; ECursor;
                                 EExecute Sql.insert params])%list).
Proof.
  intros H1 H2 H3 H4 H5 H6 Hup params r.
  assert (Hr : r = add_sample (JObj items) w) by reflexivity.
  clearbody r. revert Hr. run.
  rewrite all_in_obj.
  2:{ intros k Hk. unfold Py.has_key. simpl in Hk.
      repeat (destruct Hk as [<-|Hk]; [now rewrite ?H1, ?H2, ?H3, ?H4, ?H5, ?H6|]).
      destruct Hk. }
  unfold negb. cbv beta iota. rewrite Hup. cbv iota beta.
  rewrite (getitem_obj _ _ _ H1), (getitem_obj _ _ _ H2), (getitem_obj _ _ _ H3),
    (getitem_obj _ _ _ H4), (getitem_obj _ _ _ H5), (getitem_obj _ _ _ H6).
  cbv iota beta. unfold json_dumps. fold params.
  unfold accepted, cur_execute. cbn [fault table next_id txn db_up log open_sessions].
  destruct (fault w Sql.insert params) as [msg|].
  { intros ->. cbn. split; [discriminate|]. intros _. rewrite <- !app_assoc. eauto. }
  rewrite parse_insert. unfold store_run, params. rewrite coerce_insert. fold params.
  destruct (date_in p1) as [d|];
    [|intros ->; cbn; split; [discriminate|]; intros _; rewrite <- !app_assoc; eauto].
  destruct (json_in (JStr (Dumps.dumps p2))) as [v2|];
    [|intros ->; cbn; split; [discriminate|]; intros _; rewrite <- !app_assoc; eauto].
  destruct (json_in (JStr (Dumps.dumps p3))) as [v3|];
    [|intros ->; cbn; split; [discriminate|]; intros _; rewrite <- !app_assoc; eauto].
  destruct (json_in (JStr (Dumps.dumps p4))) as [v4|];
    [|intros ->; cbn; split; [discriminate|]; intros _; rewrite <- !app_assoc; eauto].
  destruct (int_in p5) as [z5|];
    [|intros ->; cbn; split; [discriminate|]; intros _; rewrite <- !app_assoc; eauto].
  destruct (int_in p6) as [z6|];
    [|intros ->; cbn; split; [discriminate|]; intros _; rewrite <- !app_assoc; eauto].
  destruct (existsb (has_id (next_id w)) (table w)).
  { intros ->. cbn. split; [discriminate|]. intros _. rewrite <- !app_assoc. eauto. }
  intros ->. cbn. split; [|discriminate]. intros _. rewrite <- !app_assoc.
  split; [reflexivity|]. split.
  - exists d, v2, v3, v4, z5, z6. repeat split; reflexivity.
  - split; [|reflexivity]. rewrite length_app. simpl. lia.
Qed.

(** What a successful [add_sample] tells about the request and the world. *)
Lemma add_sample_created
    (items : list (string * json)) (w : world) (p1 p2 p3 p4 p5 p6 : json) (i : Z) :
  Py.lookup "date_of_sampling" items = Some p1 ->
  Py.lookup "plant_sample_detail" items = Some p2 ->
  Py.lookup "sampling_location" items = Some p3 ->
  Py.lookup "environmental_conditions" items = Some p4 ->
  Py.lookup "location_id" items = Some p5 ->
  Py.lookup "researcher_id" items = Some p6 ->
  fst (add_sample (JObj items) w) = created i ->
  exists d v2 v3 v4 z5 z6,
    date_in p1 = Some d
    /\ json_in (JStr (Dumps.dumps p2)) = Some v2
    /\ json_in (JStr (Dumps.dumps p3)) = Some v3
    /\ json_in (JStr (Dumps.dumps p4)) = Some v4
    /\ int_in p5 = Some z5 /\ int_in p6 = Some z6
    /\ existsb (has_id i) (table w) = false
    /\ db_up (snd (add_sample (JObj items) w)) = true
    /\ fault (snd (add_sample (JObj items) w)) = fault w
    /\ table (snd (add_sample (JObj items) w))
       = (table w ++ [mkRow i d v2 v3 v4 z5 z6])%list.
Proof.
  intros H1 H2 H3 H4 H5 H6.
  remember (add_sample (JObj items) w) as r eqn:Hr. revert Hr. run.
  rewrite all_in_obj.
  2:{ intros k Hk. unfold Py.has_key. simpl in Hk.
      repeat (destruct Hk as [<-|Hk]; [now rewrite ?H1, ?H2, ?H3, ?H4, ?H5, ?H6|]).
      destruct Hk. }
  unfold negb. cbv beta iota.
  destruct (db_up w) eqn:Hup; [|intros ->; cbn; discriminate].
  rewrite (getitem_obj _ _ _ H1), (getitem_obj _ _ _ H2), (getitem_obj _ _ _ H3),
    (getitem_obj _ _ _ H4), (getitem_obj _ _ _ H5), (getitem_obj _ _ _ H6).
  cbv iota beta. unfold json_dumps.
  unfold cur_execute. cbn [fault table next_id txn db_up log open_sessions].
  match goal with |- context [fault w ?q ?ps] => destruct (fault w q ps) end;
    [intros ->; cbn; discriminate|].
  rewrite parse_insert. unfold store_run. rewrite coerce_insert.
  destruct (date_in p1) as [d|]; [|intros ->; cbn; discriminate].
  destruct (json_in (JStr (Dumps.dumps p2))) as [v2|]; [|intros ->; cbn; discriminate].
  destruct (json_in (JStr (Dumps.dumps p3))) as [v3|]; [|intros ->; cbn; discriminate].
  destruct (json_in (JStr (Dumps.dumps p4))) as [v4|]; [|intros ->; cbn; discriminate].
  destruct (int_in p5) as [z5|]; [|intros ->; cbn; discriminate].
  destruct (int_in p6) as [z6|]; [|intros ->; cbn; discriminate].
  destruct (existsb (has_id (next_id w)) (table w)) eqn:Hex;
    [intros ->; cbn; discriminate|].
  intros ->. cbn. intros Hi. injection Hi as <-.
  exists d, v2, v3, v4, z5, z6. repeat split; try reflexivity. exact Hex.
Qed.

(** C9: when a create request with all six keys succeeds with id [i], and
    the store reads each serialized structured value back as the value
    that was supplied, takes the two supplied integers as they are and
    reads the supplied date as [d], a get of [i] right after the create
    answers the success envelope with the same six values, the date as
    [str(d)], together with the id. *)
Theorem create_then_get_round_trip
    (items : list (string * json)) (w : world) (p1 v2 v3 v4 : json)
    (z5 z6 : Z) (d : date) (i : Z) :
  Py.lookup "date_of_sampling" items = Some p1 ->
  Py.lookup "plant_sample_detail" items = Some v2 ->
  Py.lookup "sampling_location" items = Some v3 ->
  Py.lookup "environmental_conditions" items = Some v4 ->
  Py.lookup "location_id" items = Some (JInt z5) ->
  Py.lookup "researcher_id" items = Some (JInt z6) ->
  date_in p1 = Some d ->
  json_in (JStr (Dumps.dumps v2)) = Some v2 ->
  json_in (JStr (Dumps.dumps v3)) = Some v3 ->
  json_in (JStr (Dumps.dumps v4)) = Some v4 ->
  int_in (JInt z5) = Some z5 ->
  int_in (JInt z6) = Some z6 ->
  fst (add_sample (JObj items) w) = created i ->
  fault w Sql.select_one [JInt i] = None ->
  fst (get_sample i (snd (add_sample (JObj items) w)))
  = jsonify [("success", JBool true);
             ("data", JObj [("sample_id", JInt i);
                            ("date_of_sampling", JStr (str_date d));
                            ("plant_sample_detail", v2);
                            ("sampling_location", v3);
                            ("environmental_conditions", v4);
                            ("location_id", JInt z5);
                            ("researcher_id", JInt z6)])].
Proof.
  intros H1 H2 H3 H4 H5 H6 Hd Hv2 Hv3 Hv4 Hz5 Hz6 Hadd Hf.
  destruct (add_sample_created items w _ _ _ _ _ _ i H1 H2 H3 H4 H5 H6 Hadd)
    as (d' & v2' & v3' & v4' & z5' & z6' & Ed & E2 & E3 & E4 & E5 & E6
        & Hfresh & Hup & Hfault & Htable).
  rewrite Hd in Ed. rewrite Hv2 in E2. rewrite Hv3 in E3. rewrite Hv4 in E4.
  rewrite Hz5 in E5. rewrite Hz6 in E6.
  injection Ed as <-. injection E2 as <-. injection E3 as <-. injection E4 as <-.
  injection E5 as <-. injection E6 as <-.
  generalize dependent (snd (add_sample (JObj items) w)). intros w1 Hup Hfault Htable.
  run. rewrite Hup. cbv beta iota.
  unfold cur_execute. cbn [fault table next_id txn db_up log open_sessions].
  rewrite Hfault, Hf, parse_select_one. unfold store_run, id_param.
  rewrite Htable, filter_app, (filter_none _ _ Hfresh).
  cbn [filter app]. unfold has_id at 1. cbn [sample_id]. rewrite Z.eqb_refl.
  reflexivity.
Qed.

(** *** Delete *)

(** C7: with the session acquired and the DELETE executed, a delete whose
    id matches no row (affected-row count zero) answers the not-found
    client error, commits nothing and leaves the table as it was; a delete
    whose id matches a row commits, the matching row is gone, and the
    answer is [{success: true, message}]. *)
Theorem delete_reports_not_found_or_commits (sample_id : Z) (w : world) :
  db_up w = true ->
  fault w Sql.delete [JInt sample_id] = None ->
  let r := delete_sample sample_id w in
  (filter (has_id sample_id) (table w) = [] ->
     fst r = jsonify_error "Sample not found" 404
     /\ log (snd r) = (log w ++ [EConnect true; ECursor;
                                 EExecute Sql.delete [JInt sample_id];
                                 ECloseCursor; ECloseConn])%list
     /\ table (snd r) = table w
     /\ length (table (snd r)) = length (table w))
  /\ (filter (has_id sample_id) (table w) <> [] ->
     fst r = deleted
     /\ log (snd r) = (log w ++ [EConnect true; ECursor;
                                 EExecute Sql.delete [JInt sample_id];
                                 ECommit; ECloseCursor; ECloseConn])%list
     /\ table (snd r) = filter (fun x => negb (has_id sample_id x)) (table w)).
Proof.
  intros Hup Hf r. subst r. run. rewrite Hup. simpl.
  unfold cur_execute. simpl. rewrite Hf, ?parse_delete. simpl.
  rewrite rowcount_zero.
  destruct (filter (has_id sample_id) (table w)) as [|x l]; simpl.
  - split; [|congruence]. intros _. rewrite <- !app_assoc. repeat split; reflexivity.
  - split; [discriminate|]. intros _. rewrite <- !app_assoc. repeat split; reflexivity.
Qed.

(** *** Sessions *)

(** C3, for the paths that end without an exception: each of the five
    operations leaves no session open when its body ends without raising,
    that is on success, on the not-found replies of get and delete, on the
    validation reply of create and when the connection could not be made.
    The "No fields to update" reply of update is set aside. *)
Theorem sessions_released_without_exception :
  (forall w, no_exception get_all_samples_body w -> releases get_all_samples w)
  /\ (forall data w,
        no_exception (add_sample_body data) w -> releases (add_sample data) w)
  /\ (forall sample_id w,
        no_exception (get_sample_body sample_id) w ->
        releases (get_sample sample_id) w)
  /\ (forall sample_id data w,
        no_exception (update_sample_body sample_id data) w ->
        fst (update_sample sample_id data w) <> jsonify_error "No fields to update" 400 ->
        releases (update_sample sample_id data) w)
  /\ (forall sample_id w,
        no_exception (delete_sample_body sample_id) w ->
        releases (delete_sample sample_id) w).
Proof.
  unfold releases, no_exception. repeat split.
  - intros w. run. destruct (db_up w); [|cbn; tauto]. cbv beta iota.
    run_execute. cbn. tauto.
  - intros data w. run. destruct (Py.all_in required_fields data) as [e|[|]];
      [cbn; tauto| |cbn; tauto].
    unfold negb. cbv beta iota. destruct (db_up w); [|cbn; tauto]. cbv beta iota.
    destruct (Py.getitem data "date_of_sampling"); [cbn; tauto|].
    destruct (Py.getitem data "plant_sample_detail"); [cbn; tauto|].
    destruct (Py.getitem data "sampling_location"); [cbn; tauto|].
    destruct (Py.getitem data "environmental_conditions"); [cbn; tauto|].
    destruct (Py.getitem data "location_id"); [cbn; tauto|].
    destruct (Py.getitem data "researcher_id"); [cbn; tauto|].
    cbv beta iota. run_execute.
    destruct (fetchone_0 cur); cbn; tauto.
  - intros sample_id w. run. destruct (db_up w); [|cbn; tauto]. cbv beta iota.
    run_execute. destruct (fetchone cur); cbn; tauto.
  - intros sample_id data w. run. destruct (db_up w); [|cbn; tauto]. cbv beta iota.
    destruct (build_update data) as [e|[update_fields values]]; [cbn; tauto|].
    cbv beta iota. destruct update_fields as [|f fs]; [cbn; intros _ H; now elim H|].
    run_execute. cbn. tauto.
  - intros sample_id w. run. destruct (db_up w); [|cbn; tauto]. cbv beta iota.
    run_execute. destruct (rowcount cur =? 0); cbn; tauto.
Qed.

(** *** Bodies that are not objects *)

(** C10, for the bodies on which the membership test raises: for a create
    or update request whose body is absent ([None]), a number or a
    boolean, the key-membership test raises a
    [TypeError] which the blanket handler turns into a 500 answer
    [{error: <string>}]: create answers it without touching the world;
    update answers it once its session is acquired, which then stays
    open, and answers the 500 connection error otherwise. *)
Theorem non_container_body_is_server_error (sample_id : Z) (data : json) (w : world) :
  not_container data = true ->
  (exists msg,
     Py.all_in required_fields data = inl (Py.TypeError msg)
     /\ add_sample data w = (jsonify_error msg 500, w))
  /\ (exists msg,
        build_update data = inl (Py.TypeError msg)
        /\ fst (update_sample sample_id data w)
           = jsonify_error (if db_up w then msg else "Database connection failed") 500)
  /\ (db_up w = true ->
        open_sessions (snd (update_sample sample_id data w)) = S (open_sessions w)
        /\ log (snd (update_sample sample_id data w))
           = (log w ++ [EConnect true; ECursor])%list).
Proof.
  intros H. destruct data; try discriminate H; clear H.
  all: split; [eexists; split; reflexivity|].
  all: split; [eexists; split; [reflexivity|run; destruct (db_up w); reflexivity]|].
  all: intros Hup; run; rewrite Hup; cbn; rewrite <- app_assoc; split; reflexivity.
Qed.

End Properties.

(** ** The properties on concrete requests *)

Lemma update_succeeds_regardless_of_match_witness :
  filter (has_id 42) (table Example.one_row_world) = []
  /\ fst (@update_sample Example.codec 42 (JObj [("location_id", JInt 9)])
                         Example.one_row_world) = updated.
Proof.
  split; [reflexivity|].
  refine (proj2 (@update_succeeds_regardless_of_match Example.codec 42
                   [("location_id", JInt 9)] Example.one_row_world _) _ _ _).
  - vm_compute. discriminate.
  - reflexivity.
  - reflexivity.
  - vm_compute. discriminate.
Defined.

Lemma update_without_fields_is_rejected_witness :
  no_recognized_key (JObj [("note", JStr "dry")]) = true
  /\ fst (@update_sample Example.codec 1 (JObj [("note", JStr "dry")])
                         Example.one_row_world)
     = jsonify_error "No fields to update" 400
  /\ table (snd (@update_sample Example.codec 1 (JObj [("note", JStr "dry")])
                                Example.one_row_world))
     = [Example.leaf_row].
Proof.
  split; [reflexivity|].
  pose proof (@update_without_fields_is_rejected Example.codec 1
                (JObj [("note", JStr "dry")]) Example.one_row_world eq_refl) as H.
  split.
  - exact (proj1 (proj2 H) eq_refl).
  - exact (proj1 (proj2 (proj2 (proj2 H)))).
Defined.

Lemma update_statement_covers_supplied_keys_witness :
  build_update (JObj [("researcher_id", JInt 3);
                      ("plant_sample_detail", JArr [JInt 1; JInt 2]);
                      ("unit", JStr "cm")])
  = inr (["plant_sample_detail = %s"; "researcher_id = %s"],
         [JStr "[1, 2]"; JInt 3]).
Proof.
  refine (proj1 (@update_statement_covers_supplied_keys Example.codec 1
                   [("researcher_id", JInt 3);
                    ("plant_sample_detail", JArr [JInt 1; JInt 2]);
                    ("unit", JStr "cm")] Example.one_row_world _ _)).
  - vm_compute. discriminate.
  - reflexivity.
Defined.

Lemma create_missing_field_is_rejected_witness :
  missing_required_key (JObj [("date_of_sampling", JStr "2024-01-01");
                              ("location_id", JInt 5)]) = true
  /\ @add_sample Example.codec (JObj [("date_of_sampling", JStr "2024-01-01");
                                      ("location_id", JInt 5)]) Example.one_row_world
     = (jsonify_error "Missing required fields" 400, Example.one_row_world).
Proof.
  split; [reflexivity|].
  exact (proj1 (@create_missing_field_is_rejected Example.codec
                  (JObj [("date_of_sampling", JStr "2024-01-01");
                         ("location_id", JInt 5)]) Example.one_row_world eq_refl)).
Defined.

Lemma create_inserts_atomically_witness :
  fst (@add_sample Example.codec Example.leaf_payload Example.empty_world) = created 1
  /\ length (table (snd (@add_sample Example.codec Example.leaf_payload
                                     Example.empty_world))) = 1%nat.
Proof.
  pose proof (@create_inserts_atomically Example.codec
                [("date_of_sampling", JStr "2024-01-01");
                 ("plant_sample_detail", JObj [("type", JStr "leaf")]);
                 ("sampling_location", JObj [("lat", JInt 1); ("lon", JInt 2)]);
                 ("environmental_conditions", JObj [("humidity", JInt 80)]);
                 ("location_id", JInt 5);
                 ("researcher_id", JInt 7)]
                Example.empty_world _ _ _ _ _ _
                eq_refl eq_refl eq_refl eq_refl eq_refl eq_refl eq_refl) as H.
  destruct (proj1 H) as (Hr & _ & Hlen & _).
  - vm_compute. reflexivity.
  - split; [exact Hr|exact Hlen].
Defined.

Lemma create_then_get_round_trip_witness :
  fst (@get_sample Example.codec 1
         (snd (@add_sample Example.codec Example.leaf_payload Example.empty_world)))
  = jsonify [("success", JBool true);
             ("data", JObj [("sample_id", JInt 1);
                            ("date_of_sampling", JStr "2024-01-01");
                            ("plant_sample_detail", JObj [("type", JStr "leaf")]);
                            ("sampling_location", JObj [("lat", JInt 1); ("lon", JInt 2)]);
                            ("environmental_conditions", JObj [("humidity", JInt 80)]);
                            ("location_id", JInt 5);
                            ("researcher_id", JInt 7)])].
Proof.
  refine (@create_then_get_round_trip Example.codec
            [("date_of_sampling", JStr "2024-01-01");
             ("plant_sample_detail", JObj [("type", JStr "leaf")]);
             ("sampling_location", JObj [("lat", JInt 1); ("lon", JInt 2)]);
             ("environmental_conditions", JObj [("humidity", JInt 80)]);
             ("location_id", JInt 5);
             ("researcher_id", JInt 7)]
            Example.empty_world _ _ _ _ 5 7 (mkDate 2024 1 1) 1
            eq_refl eq_refl eq_refl eq_refl eq_refl eq_refl
            _ _ _ _ _ _ _ _); vm_compute; reflexivity.
Defined.

Lemma delete_reports_not_found_or_commits_witness :
  fst (@delete_sample Example.codec 3 Example.one_row_world)
  = jsonify_error "Sample not found" 404
  /\ table (snd (@delete_sample Example.codec 3 Example.one_row_world))
     = [Example.leaf_row]
  /\ fst (@delete_sample Example.codec 1 Example.one_row_world) = deleted
  /\ table (snd (@delete_sample Example.codec 1 Example.one_row_world)) = [].
Proof.
  pose proof (@delete_reports_not_found_or_commits Example.codec 3
                Example.one_row_world eq_refl eq_refl) as H3.
  pose proof (@delete_reports_not_found_or_commits Example.codec 1
                Example.one_row_world eq_refl eq_refl) as H1.
  destruct (proj1 H3 eq_refl) as (Ha & _ & Hb & _).
  destruct (proj2 H1) as (Hc & _ & Hd).
  - vm_compute. discriminate.
  - repeat split; assumption.
Defined.

Lemma sessions_released_without_exception_witness :
  releases (@get_all_samples Example.codec) Example.one_row_world
  /\ releases (@add_sample Example.codec Example.leaf_payload) Example.empty_world
  /\ releases (@get_sample Example.codec 3) Example.one_row_world
  /\ releases (@update_sample Example.codec 1 (JObj [("location_id", JInt 9)]))
              Example.one_row_world
  /\ releases (@delete_sample Example.codec 3) Example.one_row_world.
Proof.
  destruct (@sessions_released_without_exception Example.codec)
    as (Hlist & Hadd & Hget & Hupdate & Hdelete).
  split; [apply Hlist; vm_compute; exact I|].
  split; [apply Hadd; vm_compute; exact I|].
  split; [apply Hget; vm_compute; exact I|].
  split; [apply Hupdate; [vm_compute; exact I|vm_compute; discriminate]|].
  apply Hdelete; vm_compute; exact I.
Defined.

Lemma non_container_body_is_server_error_witness :
  not_container JNull = true
  /\ status (fst (@add_sample Example.codec JNull Example.one_row_world)) = 500
  /\ status (fst (@update_sample Example.codec 1 JNull Example.one_row_world)) = 500
  /\ open_sessions (snd (@update_sample Example.codec 1 JNull Example.one_row_world))
     = 1%nat.
Proof.
  split; [reflexivity|].
  destruct (@non_container_body_is_server_error Example.codec 1 JNull
              Example.one_row_world eq_refl)
    as ((m1 & _ & Hadd) & (m2 & _ & Hupd) & Hsess).
  split; [now rewrite Hadd|].
  split; [now rewrite Hupd|].
  exact (proj1 (Hsess eq_refl)).
Defined.

(** C3, as stated, fails: when the statement of a create is cut by a
    network failure the handler answers 500 and the session it opened is
    still open. *)
Lemma add_sample_failure_leaves_session_open :
  status (fst (@add_sample Example.codec Example.leaf_payload Example.failing_world)) = 500
  /\ open_sessions Example.failing_world = 0%nat
  /\ open_sessions (snd (@add_sample Example.codec Example.leaf_payload
                                     Example.failing_world)) = 1%nat
  /\ ~ releases (@add_sample Example.codec Example.leaf_payload) Example.failing_world.
Proof.
  repeat split; try reflexivity. unfold releases. vm_compute. discriminate.
Qed.

(** C10, as stated, fails: a body that is a JSON array is not an object,
    yet the membership tests do not raise on it and both handlers answer
    their 400 validation error. *)
Lemma array_body_is_validation_error :
  @add_sample Example.codec (JArr []) Example.one_row_world
  = (jsonify_error "Missing required fields" 400, Example.one_row_world)
  /\ fst (@update_sample Example.codec 1 (JArr []) Example.one_row_world)
     = jsonify_error "No fields to update" 400.
Proof. split; reflexivity. Qed.

(** ** Further properties of the handlers *)

Section Further.
Context {codec : StoreCodec}.

(** The ways through one [cur.execute]: cut by a fault, refused by the
    store, run by the store, not a statement. *)
Ltac paths_execute :=
  unfold cur_execute; cbn [fault table next_id txn db_up log open_sessions];
  match goal with
  | |- context [fault ?w ?q ?ps] => destruct (fault w q ps) as [?msg|] eqn:?Hfault
  end;
  [ | match goal with
      | |- context [parse_sql ?q] => destruct (parse_sql q) as [?s|] eqn:?Hparse
      end;
      [ match goal with
        | |- context [store_run ?s ?ps ?v ?n] =>
            destruct (store_run s ps v n) as [[[?e|?cur] ?view] ?next] eqn:?Hrun
        end | ] ].

Ltac paths_list w :=
  run; destruct (db_up w) eqn:?Hup; cbv beta iota; [paths_execute|]; cbn.

Ltac paths_get w :=
  run; destruct (db_up w) eqn:?Hup; cbv beta iota;
  [paths_execute;
   [ | | match goal with |- context [fetchone ?c] => destruct (fetchone c) end | ]|];
  cbn.

Ltac paths_delete w :=
  run; destruct (db_up w) eqn:?Hup; cbv beta iota;
  [paths_execute;
   [ | | match goal with
         | |- context [rowcount ?c =? 0] => destruct (rowcount c =? 0) eqn:?Hcount
         end | ]|];
  cbn.

Ltac paths_add w :=
  run;
  match goal with
  | |- context [Py.all_in ?k ?d] => destruct (Py.all_in k d) as [?e|[|]] eqn:?Hall
  end;
  [ | unfold negb; cbv beta iota; destruct (db_up w) eqn:?Hup; cbv beta iota;
      [ repeat match goal with
               | |- context [Py.getitem ?d ?k] =>
                   is_var d; destruct (Py.getitem d k) as [?e|?p] eqn:?Hget
               end;
        try (paths_execute;
             [ | | match goal with
                   | |- context [fetchone_0 ?c] => destruct (fetchone_0 c) eqn:?Hid
                   end | ])
      | ]
    | ];
  cbn.

Ltac paths_update w :=
  run; destruct (db_up w) eqn:?Hup; cbv beta iota;
  [ match goal with
    | |- context [build_update ?d] =>
        destruct (build_update d) as [?e|[[|?f ?fs] ?values]] eqn:?Hbuild
    end;
    [ | | paths_execute ]
  | ];
  cbn.

Ltac events := eexists; rewrite <- ?app_assoc; split; [reflexivity|].

Lemma parse_select_all : parse_sql Sql.select_all = Some SelectAll.
Proof. vm_compute. reflexivity. Qed.

(** X8: every request makes at most one connection attempt and executes at
    most one statement, and commits only when it answers 200 after that
    statement. *)
Theorem one_statement_per_request :
  (forall w, one_statement w (get_all_samples w))
  /\ (forall data w, one_statement w (add_sample data w))
  /\ (forall sample_id w, one_statement w (get_sample sample_id w))
  /\ (forall sample_id data w, one_statement w (update_sample sample_id data w))
  /\ (forall sample_id w, one_statement w (delete_sample sample_id w)).
Proof.
  unfold one_statement.
  split; [|split; [|split; [|split]]]; intros.
  - paths_list w; events; cbn; repeat split; auto; discriminate.
  - paths_add w; try (events; cbn; repeat split; auto; discriminate).
    all: exists []; rewrite app_nil_r; cbn; repeat split; auto; discriminate.
  - paths_get w; events; cbn; repeat split; auto; discriminate.
  - paths_update w; events; cbn; repeat split; auto; discriminate.
  - paths_delete w; events; cbn; repeat split; auto; discriminate.
Qed.


(** X6: the answer of every operation is a success envelope with status 200
    or an error envelope [{error: msg}]; listing answers only 200 or 500,
    create and update only 200, 400 or 500, get and delete only 200, 404
    or 500. *)
Theorem answers_are_envelopes :
  (forall w, let r := fst (get_all_samples w) in is_success r \/ is_error [500] r)
  /\ (forall data w,
        let r := fst (add_sample data w) in is_success r \/ is_error [400; 500] r)
  /\ (forall sample_id w,
        let r := fst (get_sample sample_id w) in is_success r \/ is_error [404; 500] r)
  /\ (forall sample_id data w,
        let r := fst (update_sample sample_id data w) in
        is_success r \/ is_error [400; 500] r)
  /\ (forall sample_id w,
        let r := fst (delete_sample sample_id w) in
        is_success r \/ is_error [404; 500] r).
Proof.
  unfold is_success, is_error.
  split; [|split; [|split; [|split]]]; intros.
  - cbv zeta. paths_list w;
      solve [left; split; reflexivity
            |right; do 2 eexists; split; [|reflexivity]; simpl; tauto].
  - cbv zeta. paths_add w;
      solve [left; split; reflexivity
            |right; do 2 eexists; split; [|reflexivity]; simpl; tauto].
  - cbv zeta. paths_get w;
      solve [left; split; reflexivity
            |right; do 2 eexists; split; [|reflexivity]; simpl; tauto].
  - cbv zeta. paths_update w;
      solve [left; split; reflexivity
            |right; do 2 eexists; split; [|reflexivity]; simpl; tauto].
  - cbv zeta. paths_delete w;
      solve [left; split; reflexivity
            |right; do 2 eexists; split; [|reflexivity]; simpl; tauto].
Qed.

(** X7: an operation that does not answer 200 leaves the committed table
    as it was. *)
Theorem failure_leaves_table_unchanged :
  (forall w, status (fst (get_all_samples w)) <> 200 ->
             table (snd (get_all_samples w)) = table w)
  /\ (forall data w, status (fst (add_sample data w)) <> 200 ->
                     table (snd (add_sample data w)) = table w)
  /\ (forall sample_id w, status (fst (get_sample sample_id w)) <> 200 ->
                          table (snd (get_sample sample_id w)) = table w)
  /\ (forall sample_id data w,
        status (fst (update_sample sample_id data w)) <> 200 ->
        table (snd (update_sample sample_id data w)) = table w)
  /\ (forall sample_id w, status (fst (delete_sample sample_id w)) <> 200 ->
                          table (snd (delete_sample sample_id w)) = table w).
Proof.
  split; [|split; [|split; [|split]]]; intros until w.
  - paths_list w; intros H; solve [reflexivity|now elim H].
  - paths_add w; intros H; solve [reflexivity|now elim H].
  - paths_get w; intros H; solve [reflexivity|now elim H].
  - paths_update w; intros H; solve [reflexivity|now elim H].
  - paths_delete w; intros H; solve [reflexivity|now elim H].
Qed.

(** X3: listing and get never write: whatever happens, the committed table
    and the id sequence are as before and nothing is committed. *)
Theorem reads_never_write :
  (forall w,
     table (snd (get_all_samples w)) = table w
     /\ next_id (snd (get_all_samples w)) = next_id w
     /\ exists evs, log (snd (get_all_samples w)) = (log w ++ evs)%list
                    /\ existsb is_commit evs = false)
  /\ (forall sample_id w,
        table (snd (get_sample sample_id w)) = table w
        /\ next_id (snd (get_sample sample_id w)) = next_id w
        /\ exists evs, log (snd (get_sample sample_id w)) = (log w ++ evs)%list
                       /\ existsb is_commit evs = false).
Proof.
  split.
  - intros w. run. destruct (db_up w); cbv beta iota.
    + unfold cur_execute. cbn [fault table next_id txn db_up log open_sessions].
      destruct (fault w Sql.select_all []); [cbn; repeat split; events; reflexivity|].
      rewrite parse_select_all. cbn. repeat split; events; reflexivity.
    + cbn. repeat split; events; reflexivity.
  - intros sample_id w. run. destruct (db_up w); cbv beta iota.
    + unfold cur_execute. cbn [fault table next_id txn db_up log open_sessions].
      destruct (fault w Sql.select_one [JInt sample_id]);
        [cbn; repeat split; events; reflexivity|].
      rewrite parse_select_one. cbn.
      destruct (filter (has_id sample_id) (table w)); cbn;
        repeat split; events; reflexivity.
    + cbn. repeat split; events; reflexivity.
Qed.

(** X9: an operation opens at most one session and never closes a session
    it did not open. *)
Theorem sessions_grow_by_at_most_one :
  (forall w, let n := open_sessions (snd (get_all_samples w)) in
             open_sessions w <= n <= S (open_sessions w))%nat
  /\ (forall data w, let n := open_sessions (snd (add_sample data w)) in
                     open_sessions w <= n <= S (open_sessions w))%nat
  /\ (forall sample_id w, let n := open_sessions (snd (get_sample sample_id w)) in
                          open_sessions w <= n <= S (open_sessions w))%nat
  /\ (forall sample_id data w,
        let n := open_sessions (snd (update_sample sample_id data w)) in
        open_sessions w <= n <= S (open_sessions w))%nat
  /\ (forall sample_id w, let n := open_sessions (snd (delete_sample sample_id w)) in
                          open_sessions w <= n <= S (open_sessions w))%nat.
Proof.
  split; [|split; [|split; [|split]]]; intros; subst n.
  - paths_list w; lia.
  - paths_add w; lia.
  - paths_get w; lia.
  - paths_update w; lia.
  - paths_delete w; lia.
Qed.


(** *** What each operation answers *)

(** X2: with the session acquired and the SELECT executed, get answers 404
    "Sample not found" when no row has the id and otherwise the success
    envelope with the first such row; either way the session is closed and
    the table untouched. *)
Theorem get_sample_answers (sample_id : Z) (w : world) :
  db_up w = true ->
  fault w Sql.select_one [JInt sample_id] = None ->
  fst (get_sample sample_id w)
  = match filter (has_id sample_id) (table w) with
    | [] => jsonify_error "Sample not found" 404
    | sample :: _ => jsonify [("success", JBool true); ("data", sample_json sample)]
    end
  /\ log (snd (get_sample sample_id w))
     = (log w ++ [EConnect true; ECursor; EExecute Sql.select_one [JInt sample_id];
                  ECloseCursor; ECloseConn])%list
  /\ open_sessions (snd (get_sample sample_id w)) = open_sessions w.
Proof.
  intros Hup Hf. run. rewrite Hup. cbv beta iota.
  unfold cur_execute. cbn [fault table next_id txn db_up log open_sessions].
  rewrite Hf, parse_select_one. cbn.
  destruct (filter (has_id sample_id) (table w)); cbn;
    rewrite <- !app_assoc; repeat split; reflexivity.
Qed.

(** X1: with the session acquired and the SELECT executed, listing answers
    the success envelope whose data are the rows of the table, one entry
    per row and in the order of the table, and closes its session. *)
Theorem get_all_samples_answers (w : world) :
  db_up w = true ->
  fault w Sql.select_all [] = None ->
  fst (get_all_samples w)
  = jsonify [("success", JBool true); ("data", JArr (map sample_json (table w)))]
  /\ log (snd (get_all_samples w))
     = (log w ++ [EConnect true; ECursor; EExecute Sql.select_all [];
                  ECloseCursor; ECloseConn])%list
  /\ open_sessions (snd (get_all_samples w)) = open_sessions w.
Proof.
  intros Hup Hf. run. rewrite Hup. cbv beta iota.
  unfold cur_execute. cbn [fault table next_id txn db_up log open_sessions].
  rewrite Hf, parse_select_all. cbn.
  rewrite <- !app_assoc. repeat split; reflexivity.
Qed.

(** X4: when the connection cannot be made, every operation answers 500
    "Database connection failed" after that one attempt, whatever the id
    or the body; create does so once its body has passed validation. *)
Theorem unreachable_store_is_server_error (sample_id : Z) (data : json) (w : world) :
  db_up w = false ->
  get_all_samples w = (connection_failed, record (EConnect false) w)
  /\ get_sample sample_id w = (connection_failed, record (EConnect false) w)
  /\ update_sample sample_id data w = (connection_failed, record (EConnect false) w)
  /\ delete_sample sample_id w = (connection_failed, record (EConnect false) w)
  /\ (Py.all_in required_fields data = inr true ->
      add_sample data w = (connection_failed, record (EConnect false) w)).
Proof.
  intros Hup. run. rewrite Hup. cbn. repeat split.
  intros ->. cbn. now rewrite Hup.
Qed.

(** X5: when the statement of an operation is cut by a failure of the
    store, the operation answers 500 with the message of that failure as
    it is, and the committed table is unchanged. *)
Theorem store_failure_is_surfaced
    (sample_id : Z) (items : list (string * json)) (msg : string) (w : world) :
  db_up w = true ->
  (fault w Sql.select_all [] = Some msg ->
     fst (get_all_samples w) = jsonify_error msg 500)
  /\ (fault w Sql.select_one [JInt sample_id] = Some msg ->
     fst (get_sample sample_id w) = jsonify_error msg 500)
  /\ (fault w Sql.delete [JInt sample_id] = Some msg ->
     fst (delete_sample sample_id w) = jsonify_error msg 500
     /\ table (snd (delete_sample sample_id w)) = table w)
  /\ (recognized items <> [] ->
      fault w (Sql.update (map Sql.set_term (recognized items)))
              (map (value_of items) (recognized items) ++ [JInt sample_id]) = Some msg ->
     fst (update_sample sample_id (JObj items) w) = jsonify_error msg 500
     /\ table (snd (update_sample sample_id (JObj items) w)) = table w)
  /\ (recognized items = all_columns ->
      fault w Sql.insert (map (value_of items) all_columns) = Some msg ->
     fst (add_sample (JObj items) w) = jsonify_error msg 500
     /\ table (snd (add_sample (JObj items) w)) = table w).
Proof.
  intros Hup. split; [|split; [|split; [|split]]].
  - intros Hf. run. rewrite Hup. cbv beta iota.
    unfold cur_execute. cbn [fault table next_id txn db_up log open_sessions].
    now rewrite Hf.
  - intros Hf. run. rewrite Hup. cbv beta iota.
    unfold cur_execute. cbn [fault table next_id txn db_up log open_sessions].
    now rewrite Hf.
  - intros Hf. run. rewrite Hup. cbv beta iota.
    unfold cur_execute. cbn [fault table next_id txn db_up log open_sessions].
    rewrite Hf. split; reflexivity.
  - intros Hne Hf. run. rewrite Hup. cbv beta iota.
    rewrite build_update_obj. cbv beta iota.
    destruct (map Sql.set_term (recognized items)) as [|f fs] eqn:Ef.
    { exfalso. apply Hne. destruct (recognized items); [reflexivity|discriminate]. }
    unfold cur_execute. cbn [fault table next_id txn db_up log open_sessions].
    rewrite Hf. split; reflexivity.
  - intros Hall Hf.
    assert (Hk : forall c, In c all_columns -> Py.has_key (column_name c) items = true).
    { intros c Hc. rewrite <- Hall in Hc. unfold recognized in Hc.
      apply filter_In in Hc. tauto. }
    assert (Hv : forall c, In c all_columns ->
                 exists v, Py.lookup (column_name c) items = Some v).
    { intros c Hc. specialize (Hk c Hc). unfold Py.has_key in Hk.
      destruct (Py.lookup (column_name c) items); [eauto|discriminate]. }
    destruct (Hv CDate) as [p1 H1]; [simpl; tauto|].
    destruct (Hv CDetail) as [p2 H2]; [simpl; tauto|].
    destruct (Hv CLocation) as [p3 H3]; [simpl; tauto|].
    destruct (Hv CConditions) as [p4 H4]; [simpl; tauto|].
    destruct (Hv CLocationId) as [p5 H5]; [simpl; tauto|].
    destruct (Hv CResearcherId) as [p6 H6]; [simpl; tauto|].
    simpl in H1, H2, H3, H4, H5, H6.
    revert Hf. unfold value_of. simpl. rewrite H1, H2, H3, H4, H5, H6. intros Hf.
    run. rewrite all_in_obj.
    2:{ intros k Hk'. unfold Py.has_key. simpl in Hk'.
        repeat (destruct Hk' as [<-|Hk']; [now rewrite ?H1, ?H2, ?H3, ?H4, ?H5, ?H6|]).
        destruct Hk'. }
    unfold negb. cbv beta iota. rewrite Hup. cbv iota beta.
    rewrite (getitem_obj _ _ _ H1), (getitem_obj _ _ _ H2), (getitem_obj _ _ _ H3),
      (getitem_obj _ _ _ H4), (getitem_obj _ _ _ H5), (getitem_obj _ _ _ H6).
    cbv iota beta. unfold json_dumps.
    unfold cur_execute. cbn [fault table next_id txn db_up log open_sessions].
    rewrite Hf. split; reflexivity.
Qed.

(** *** Validation *)

Lemma all_in_false (data : json) (keys : list string) :
  Py.all_in keys data = inr false -> existsb (absent data) keys = true.
Proof.
  induction keys as [|k keys IH]; simpl; [discriminate|].
  unfold absent at 1. destruct (Py.contains k data) as [e|[|]]; try discriminate.
  - intros H. now rewrite IH.
  - reflexivity.
Qed.

Lemma recognized_none (items : list (string * json)) :
  recognized items = [] -> no_recognized_key (JObj items) = true.
Proof.
  unfold recognized, no_recognized_key, absent, all_columns, required_fields,
    Py.contains, Py.has_key. simpl.
  destruct (Py.lookup "date_of_sampling" items); [discriminate|].
  destruct (Py.lookup "plant_sample_detail" items); [discriminate|].
  destruct (Py.lookup "sampling_location" items); [discriminate|].
  destruct (Py.lookup "environmental_conditions" items); [discriminate|].
  destruct (Py.lookup "location_id" items); [discriminate|].
  destruct (Py.lookup "researcher_id" items); [discriminate|reflexivity].
Qed.

(** On a list or a string the first recognized key that is found makes the
    subscript raise. *)
Lemma build_update_sequence (data : json) :
  is_sequence data = true ->
  build_update data
  = if no_recognized_key data then inr ([], [])
    else inl (Py.TypeError
                match data with
                | JArr _ => "list indices must be integers or slices, not str"
                | _ => "string indices must be integers, not 'str'"
                end).
Proof.
  destruct data; try discriminate; intros _;
    unfold build_update, add_field, no_recognized_key, absent, required_fields;
    cbn [Py.contains Py.getitem forallb];
    repeat match goal with
           | |- context [existsb (Py.str_eq ?k) ?l] =>
               destruct (existsb (Py.str_eq k) l); cbn [andb]; try reflexivity
           | |- context [Py.occurs ?k ?s] =>
               destruct (Py.occurs k s); cbn [andb]; try reflexivity
           end.
Qed.

Lemma build_update_empty (data : json) (values : list json) :
  build_update data = inr ([], values) -> no_recognized_key data = true.
Proof.
  destruct data; try (cbn; discriminate).
  - rewrite build_update_sequence by reflexivity.
    destruct (no_recognized_key (JStr s)); [reflexivity|discriminate].
  - rewrite build_update_sequence by reflexivity.
    destruct (no_recognized_key (JArr items)); [reflexivity|discriminate].
  - rewrite build_update_obj. intros H. apply recognized_none.
    injection H as H _. destruct (recognized items); [reflexivity|discriminate].
Qed.

(** X10: create answers 400 exactly when one of the six membership tests
    evaluates to False, and update exactly when its session is acquired
    and all six evaluate to False; the values under the keys play no part
    in validation. *)
Theorem validation_is_key_presence :
  (forall data w,
     status (fst (add_sample data w)) = 400 <-> missing_required_key data = true)
  /\ (forall sample_id data w,
        status (fst (update_sample sample_id data w)) = 400
        <-> db_up w = true /\ no_recognized_key data = true).
Proof.
  split.
  - intros data w. destruct (missing_required_key data) eqn:Hm.
    + run. rewrite (all_in_missing data required_fields Hm). cbn. tauto.
    + split; [|discriminate]. unfold missing_required_key in Hm.
      paths_add w; intros Hs; try discriminate.
      rewrite (all_in_false _ _ Hall) in Hm. discriminate.
  - intros sample_id data w. destruct (db_up w) eqn:Hup.
    2:{ run. rewrite Hup. cbn. split; [discriminate|intros [H _]; discriminate]. }
    destruct (no_recognized_key data) eqn:Hn.
    + run. rewrite Hup. cbv beta iota. rewrite (build_update_none data Hn). cbn. tauto.
    + split; [|intros [_ H]; discriminate].
      paths_update w; intros Hs; try discriminate.
      rewrite (build_update_empty _ _ Hbuild) in Hn. discriminate.
Qed.

(** X11: a body that is a list or a string passes the membership tests like
    a dict would, and then cannot be subscripted: create, on a body that
    holds all six names, answers 500 after it opened a session that stays
    open and before any statement; update, on a body that holds one of
    them, answers 500 as well. *)
Theorem sequence_body_fails_at_subscript (sample_id : Z) (data : json) (w : world) :
  is_sequence data = true ->
  (Py.all_in required_fields data = inr true ->
   db_up w = true ->
   exists msg,
     Py.getitem data "date_of_sampling" = inl (Py.TypeError msg)
     /\ fst (add_sample data w) = jsonify_error msg 500
     /\ log (snd (add_sample data w)) = (log w ++ [EConnect true; ECursor])%list
     /\ open_sessions (snd (add_sample data w)) = S (open_sessions w))
  /\ (no_recognized_key data = false ->
      exists msg,
        build_update data = inl (Py.TypeError msg)
        /\ fst (update_sample sample_id data w)
           = jsonify_error (if db_up w then msg else "Database connection failed") 500).
Proof.
  intros Hs. split.
  - intros Hall Hup. run. rewrite Hall. unfold negb. cbv beta iota.
    rewrite Hup. cbv beta iota.
    destruct data; try discriminate; cbn; rewrite <- app_assoc; eauto.
  - intros Hn. pose proof (build_update_sequence data Hs) as Hb. rewrite Hn in Hb.
    eexists. split; [exact Hb|]. run. destruct (db_up w); cbv beta iota.
    + rewrite Hb. destruct data; try discriminate; reflexivity.
    + reflexivity.
Qed.

(** *** Keys outside the six *)

Lemma same_fields_recognized (items items' : list (string * json)) :
  same_fields items items' ->
  recognized items = recognized items'
  /\ map (value_of items) (recognized items) = map (value_of items') (recognized items').
Proof.
  intros H.
  assert (Hc : forall c, Py.lookup (column_name c) items
                         = Py.lookup (column_name c) items').
  { intros c. apply H. destruct c; simpl; tauto. }
  assert (Hr : recognized items = recognized items').
  { unfold recognized. apply filter_ext. intros c. unfold Py.has_key. now rewrite Hc. }
  split; [exact Hr|]. rewrite <- Hr. apply map_ext. intros c.
  unfold value_of. now rewrite Hc.
Qed.

(** X12: create and update read nothing of an object body but the values
    under the six keys: two bodies that agree on those get the same
    answer and leave the same world, whatever else they hold and in
    whatever order. *)
Theorem other_keys_are_ignored
    (sample_id : Z) (items items' : list (string * json)) (w : world) :
  same_fields items items' ->
  add_sample (JObj items) w = add_sample (JObj items') w
  /\ update_sample sample_id (JObj items) w = update_sample sample_id (JObj items') w.
Proof.
  intros H. split.
  - assert (Hall : Py.all_in required_fields (JObj items)
                   = Py.all_in required_fields (JObj items')).
    { unfold required_fields. cbn [Py.all_in Py.contains]. unfold Py.has_key.
      rewrite !H by (simpl; tauto). reflexivity. }
    assert (Hget : forall k, In k required_fields ->
                   Py.getitem (JObj items) k = Py.getitem (JObj items') k).
    { intros k Hk. cbn [Py.getitem]. now rewrite (H k Hk). }
    run. rewrite Hall.
    rewrite !(Hget _) by (simpl; tauto). reflexivity.
  - destruct (same_fields_recognized _ _ H) as [Hr Hv].
    run. rewrite !build_update_obj, Hv, Hr. reflexivity.
Qed.

(** *** What the operations do to the table *)

Lemma set_cell_id (r : row) (a : column * cell) :
  sample_id (set_cell r a) = sample_id r.
Proof. destruct a as [[] []]; reflexivity. Qed.

Lemma fold_set_cell_id (cells : list (column * cell)) (r : row) :
  sample_id (fold_left set_cell cells r) = sample_id r.
Proof.
  revert r. induction cells as [|a cells IH]; intros r; simpl; [reflexivity|].
  now rewrite IH, set_cell_id.
Qed.

Lemma set_cell_other (c c' : column) (x : cell) (r : row) :
  c <> c' -> cell_of c (set_cell r (c', x)) = cell_of c r.
Proof. destruct c, c', x; simpl; congruence. Qed.

Lemma set_cell_same (c : column) (p : json) (x : cell) (r : row) :
  coerce c p = Some x -> cell_of c (set_cell r (c, x)) = x.
Proof.
  destruct c; simpl;
    [destruct (date_in p)|destruct (json_in p)|destruct (json_in p)
    |destruct (json_in p)|destruct (int_in p)|destruct (int_in p)];
    simpl; intros H; inversion H; reflexivity.
Qed.

(** Converted values written into a row: the selected columns hold them,
    the other columns hold what they held. *)
Lemma fold_set_cell (cols : list column) :
  forall (ps : list json) (cells : list (column * cell)) (r : row),
  NoDup cols ->
  coerce_all cols ps = Some cells ->
  (forall c, ~ In c cols -> cell_of c (fold_left set_cell cells r) = cell_of c r)
  /\ (forall c p, In (c, p) (combine cols ps) ->
        coerce c p = Some (cell_of c (fold_left set_cell cells r))).
Proof.
  induction cols as [|c0 cols IH]; intros [|p0 ps] cells r Hnd; simpl;
    try discriminate.
  - intros H. injection H as <-. simpl. split; [reflexivity|tauto].
  - destruct (coerce c0 p0) as [x|] eqn:E0; [|discriminate].
    destruct (coerce_all cols ps) as [rest|] eqn:Er; [|discriminate].
    intros H. injection H as <-. cbn [fold_left].
    inversion Hnd as [|? ? Hnot Hnd']; subst.
    destruct (IH ps rest (set_cell r (c0, x)) Hnd' Er) as [Hout Hin].
    split.
    + intros c Hc. rewrite Hout by tauto. apply set_cell_other. intros ->. tauto.
    + intros c p [Heq|Hcp].
      * injection Heq as <- <-. rewrite (Hout c0 Hnot), (set_cell_same _ _ _ _ E0).
        exact E0.
      * now apply Hin.
Qed.

Lemma map_unless {A : Type} (p : A -> bool) (l : list A) :
  map (fun x => if p x then x else x) l = l.
Proof.
  induction l as [|x l IH]; simpl; [reflexivity|]. rewrite IH. now destruct (p x).
Qed.

Lemma map_where_none {A : Type} (p : A -> bool) (f : A -> A) (l : list A) :
  filter p l = [] -> map (fun x => if p x then f x else x) l = l.
Proof.
  induction l as [|x l IH]; simpl; [reflexivity|].
  destruct (p x); [discriminate|]. intros H. now rewrite IH.
Qed.

(** The text of an update is read by the store as an update or not at
    all. *)
Lemma parse_update_only (update_fields : list string) (s : stmt) :
  parse_sql (Sql.update update_fields) = Some s -> exists cols, s = Update cols.
Proof.
  unfold parse_sql, Sql.update, Sql.select_all, Sql.insert, Sql.select_one, Sql.delete.
  cbn [String.append String.eqb Ascii.eqb Bool.eqb andb].
  destruct (find _ _); intros H; inversion H; eauto.
Qed.

(** Whatever an update request holds, the committed table afterwards is
    the table with the rows of that id rewritten by one function that
    keeps ids. *)
Lemma update_sample_table (sid : Z) (data : json) (w : world) :
  exists f : row -> row,
    (forall r, sample_id (f r) = sample_id r)
    /\ table (snd (update_sample sid data w))
       = map (fun r => if has_id sid r then f r else r) (table w).
Proof.
  run. destruct (db_up w); cbv beta iota.
  2:{ exists (fun r => r). cbn. now rewrite map_unless. }
  destruct (build_update data) as [e|[[|f fs] values]]; cbv beta iota.
  1,2: exists (fun r => r); cbn; now rewrite map_unless.
  unfold cur_execute. cbn [fault table next_id txn db_up log open_sessions].
  destruct (fault w _ _).
  { exists (fun r => r). cbn. now rewrite map_unless. }
  destruct (parse_sql _) as [s|] eqn:Hp.
  2:{ exists (fun r => r). cbn. now rewrite map_unless. }
  destruct (parse_update_only _ _ Hp) as [cols ->].
  unfold store_run. rewrite removelast_last.
  destruct (coerce_all cols values) as [cells|] eqn:Ec.
  2:{ exists (fun r => r). cbn. now rewrite map_unless. }
  rewrite <- (coerce_all_length _ _ _ Ec), skipn_app, skipn_all, Nat.sub_diag.
  cbn. exists (fold_left set_cell cells). split; [apply fold_set_cell_id|reflexivity].
Qed.

(** X13: update never adds, removes, reorders or renumbers rows, and never
    touches a row of another id, whatever the body and whatever happens:
    the ids of the table are the same list before and after. *)
Theorem update_keeps_rows_and_ids (sid : Z) (data : json) (w : world) :
  ids (table (snd (update_sample sid data w))) = ids (table w)
  /\ length (table (snd (update_sample sid data w))) = length (table w)
  /\ (forall r, In r (table w) -> sample_id r <> sid ->
        In r (table (snd (update_sample sid data w)))).
Proof.
  destruct (update_sample_table sid data w) as (f & Hf & ->).
  split; [|split].
  - unfold ids. rewrite map_map. apply map_ext. intros r.
    destruct (has_id sid r); [apply Hf|reflexivity].
  - apply length_map.
  - intros r Hr Hid. apply in_map_iff. exists r. split; [|exact Hr].
    unfold has_id. destruct (Z.eqb_spec (sample_id r) sid); congruence.
Qed.

(** X14: an update of an id that no row has leaves the committed table as it
    was, whatever it answers. *)
Theorem update_of_unknown_id_changes_nothing (sample_id : Z) (data : json) (w : world) :
  filter (has_id sample_id) (table w) = [] ->
  table (snd (update_sample sample_id data w)) = table w.
Proof.
  intros H. destruct (update_sample_table sample_id data w) as (f & _ & ->).
  now apply map_where_none.
Qed.

(** X15: an update that the store runs changes, in the rows of that id, the
    columns of the supplied keys to the converted values and nothing else:
    every other column of those rows, their id, and every other row are as
    before. *)
Theorem update_changes_only_supplied_columns
    (sid : Z) (items : list (string * json)) (w : world)
    (cells : list (column * cell)) :
  recognized items <> [] ->
  db_up w = true ->
  fault w (Sql.update (map Sql.set_term (recognized items)))
          (map (value_of items) (recognized items) ++ [JInt sid]) = None ->
  coerce_all (recognized items) (map (value_of items) (recognized items)) = Some cells ->
  let change := fold_left set_cell cells in
  table (snd (update_sample sid (JObj items) w))
  = map (fun r => if has_id sid r then change r else r) (table w)
  /\ (forall r, sample_id (change r) = sample_id r)
  /\ (forall r c, ~ In c (recognized items) -> cell_of c (change r) = cell_of c r)
  /\ (forall r c, In c (recognized items) ->
        coerce c (value_of items c) = Some (cell_of c (change r))).
Proof.
  intros Hne Hup Hf Hc change.
  assert (Hnd : NoDup (recognized items)) by apply NoDup_filter, NoDup_all_columns.
  split; [|split; [|split]].
  - run. rewrite Hup. cbv beta iota. rewrite build_update_obj. cbv beta iota.
    pose proof (update_statement_recognized items Hne) as Hparse.
    destruct (map Sql.set_term (recognized items)) as [|f fs] eqn:Ef.
    { exfalso. apply Hne. destruct (recognized items); [reflexivity|discriminate]. }
    unfold cur_execute. cbn [fault table next_id txn db_up log open_sessions].
    rewrite Hf, Hparse, (store_run_update _ _ _ _ _ _ Hc). reflexivity.
  - intros r. apply fold_set_cell_id.
  - intros r c Hn. now apply (proj1 (fold_set_cell _ _ _ r Hnd Hc)).
  - intros r c Hin. apply (proj2 (fold_set_cell _ _ _ r Hnd Hc)).
    clear -Hin. induction (recognized items) as [|c0 l IH]; simpl in *; [tauto|].
    destruct Hin as [->|Hin]; [now left|right; auto].
Qed.

Lemma no_row_has_id (i : Z) (t : list row) :
  existsb (has_id i) t = false -> ~ In i (ids t).
Proof.
  induction t as [|r t IH]; simpl; [tauto|].
  unfold has_id at 1. destruct (Z.eqb_spec (sample_id r) i); simpl; [discriminate|].
  intros H [Heq|Hin]; [congruence|now apply IH].
Qed.

Lemma NoDup_snoc {A : Type} (l : list A) (a : A) :
  NoDup l -> ~ In a l -> NoDup (l ++ [a]).
Proof.
  induction 1 as [|x l Hx Hl IH]; simpl; intros Ha.
  - constructor; [tauto|constructor].
  - constructor.
    + rewrite in_app_iff. simpl. intros [H|[H|[]]]; [tauto|]. subst. tauto.
    + apply IH. tauto.
Qed.

Lemma NoDup_ids_filter (p : row -> bool) (t : list row) :
  NoDup (ids t) -> NoDup (ids (filter p t)).
Proof.
  unfold ids. induction t as [|r t IH]; simpl; intros H; [constructor|].
  inversion H as [|? ? Hr Ht]; subst.
  destruct (p r); simpl; [constructor|]; auto.
  intros Hin. apply Hr. apply in_map_iff in Hin. destruct Hin as [r' [Heq Hin]].
  apply in_map_iff. exists r'. split; [exact Heq|]. apply filter_In in Hin. tauto.
Qed.

(** What a create request leaves: the table as it was and another answer
    than 200, or one more row with the generated id and that id in the
    answer. *)
Lemma add_sample_cases (data : json) (w : world) :
  (table (snd (add_sample data w)) = table w
   /\ status (fst (add_sample data w)) <> 200)
  \/ (exists r,
        fst (add_sample data w) = created (sample_id r)
        /\ table (snd (add_sample data w)) = (table w ++ [r])%list
        /\ sample_id r = next_id w
        /\ existsb (has_id (next_id w)) (table w) = false
        /\ db_up w = true).
Proof.
  run. destruct (Py.all_in required_fields data) as [e|[|]];
    [left; cbn; split; [reflexivity|discriminate]|
    |left; cbn; split; [reflexivity|discriminate]].
  unfold negb. cbv beta iota.
  destruct (db_up w); cbv beta iota;
    [|left; cbn; split; [reflexivity|discriminate]].
  destruct (Py.getitem data "date_of_sampling") as [e|p1];
    [left; cbn; split; [reflexivity|discriminate]|].
  destruct (Py.getitem data "plant_sample_detail") as [e|p2];
    [left; cbn; split; [reflexivity|discriminate]|].
  destruct (Py.getitem data "sampling_location") as [e|p3];
    [left; cbn; split; [reflexivity|discriminate]|].
  destruct (Py.getitem data "environmental_conditions") as [e|p4];
    [left; cbn; split; [reflexivity|discriminate]|].
  destruct (Py.getitem data "location_id") as [e|p5];
    [left; cbn; split; [reflexivity|discriminate]|].
  destruct (Py.getitem data "researcher_id") as [e|p6];
    [left; cbn; split; [reflexivity|discriminate]|].
  cbv beta iota.
  unfold cur_execute. cbn [fault table next_id txn db_up log open_sessions].
  destruct (fault w _ _); [left; cbn; split; [reflexivity|discriminate]|].
  rewrite parse_insert. unfold store_run.
  destruct (coerce_all all_columns _) as [cells|];
    [|left; cbn; split; [reflexivity|discriminate]].
  destruct (existsb (has_id (next_id w)) (table w)) eqn:Hex;
    [left; cbn; split; [reflexivity|discriminate]|].
  right. cbn. eexists. split; [|split; [reflexivity|split; [|split; reflexivity]]].
  - rewrite fold_set_cell_id. reflexivity.
  - apply fold_set_cell_id.
Qed.

(** What a delete request leaves: the table as it was and another answer
    than 200, or the table without the rows of that id and the success
    envelope. *)
Lemma delete_sample_cases (sample_id : Z) (w : world) :
  (table (snd (delete_sample sample_id w)) = table w
   /\ status (fst (delete_sample sample_id w)) <> 200)
  \/ (fst (delete_sample sample_id w) = deleted
      /\ table (snd (delete_sample sample_id w))
         = filter (fun r => negb (has_id sample_id r)) (table w)
      /\ filter (has_id sample_id) (table w) <> []
      /\ db_up w = true
      /\ fault w Sql.delete [JInt sample_id] = None).
Proof.
  run. destruct (db_up w); cbv beta iota;
    [|left; cbn; split; [reflexivity|discriminate]].
  unfold cur_execute. cbn [fault table next_id txn db_up log open_sessions].
  destruct (fault w Sql.delete [JInt sample_id]);
    [left; cbn; split; [reflexivity|discriminate]|].
  rewrite parse_delete. cbn. rewrite rowcount_zero.
  destruct (filter (has_id sample_id) (table w)); cbn.
  - left. split; [reflexivity|discriminate].
  - right. repeat split; try reflexivity. discriminate.
Qed.

(** No operation changes whether the store can be reached or how it
    fails. *)
Lemma environment_kept :
  (forall w, db_up (snd (get_all_samples w)) = db_up w
             /\ fault (snd (get_all_samples w)) = fault w)
  /\ (forall data w, db_up (snd (add_sample data w)) = db_up w
                     /\ fault (snd (add_sample data w)) = fault w)
  /\ (forall sample_id w, db_up (snd (get_sample sample_id w)) = db_up w
                          /\ fault (snd (get_sample sample_id w)) = fault w)
  /\ (forall sample_id data w,
        db_up (snd (update_sample sample_id data w)) = db_up w
        /\ fault (snd (update_sample sample_id data w)) = fault w)
  /\ (forall sample_id w, db_up (snd (delete_sample sample_id w)) = db_up w
                          /\ fault (snd (delete_sample sample_id w)) = fault w).
Proof.
  split; [|split; [|split; [|split]]]; intros.
  - paths_list w; rewrite <- ?Hup; split; reflexivity.
  - paths_add w; rewrite <- ?Hup; split; reflexivity.
  - paths_get w; rewrite <- ?Hup; split; reflexivity.
  - paths_update w; rewrite <- ?Hup; split; reflexivity.
  - paths_delete w; rewrite <- ?Hup; split; reflexivity.
Qed.

(** X16: a create either leaves the table as it was and answers something
    else than 200, or appends exactly one row and answers the success
    envelope with the id of that row, an id no row had before; it never
    changes or removes a row. *)
Theorem create_appends_one_row_or_nothing (data : json) (w : world) :
  (table (snd (add_sample data w)) = table w
   /\ status (fst (add_sample data w)) <> 200)
  \/ (exists r,
        table (snd (add_sample data w)) = (table w ++ [r])%list
        /\ fst (add_sample data w) = created (sample_id r)
        /\ ~ In (sample_id r) (ids (table w))).
Proof.
  destruct (add_sample_cases data w) as [H|(r & Hr & Ht & Hid & Hex & _)];
    [left; exact H|right].
  exists r. split; [exact Ht|split; [exact Hr|]]. rewrite Hid. now apply no_row_has_id.
Qed.

(** X17: a delete never adds or changes a row and never removes a row of
    another id; and once it answers 200 no row of that id is left. *)
Theorem delete_removes_only_that_id (sid : Z) (w : world) :
  (forall r, In r (table (snd (delete_sample sid w))) -> In r (table w))
  /\ (forall r, In r (table w) -> sample_id r <> sid ->
        In r (table (snd (delete_sample sid w))))
  /\ (status (fst (delete_sample sid w)) = 200 ->
      ~ In sid (ids (table (snd (delete_sample sid w))))).
Proof.
  destruct (delete_sample_cases sid w) as [[-> Hs]|(Hr & -> & _)].
  - split; [auto|split; [auto|intros H; now elim Hs]].
  - split; [|split].
    + intros r Hin. apply filter_In in Hin. tauto.
    + intros r Hin Hid. apply filter_In. split; [exact Hin|].
      unfold has_id. destruct (Z.eqb_spec (sample_id r) sid);
        [congruence|reflexivity].
    + intros _ Hin. unfold ids in Hin. apply in_map_iff in Hin.
      destruct Hin as [r [Hid Hin]]. apply filter_In in Hin.
      destruct Hin as [_ Hin]. unfold has_id in Hin.
      rewrite Hid, Z.eqb_refl in Hin. discriminate.
Qed.

(** X18: when the ids of the table are pairwise distinct before a request,
    they are so after it, for each of the five operations and whatever the
    request holds. *)
Theorem ids_stay_distinct (sample_id : Z) (data : json) (w : world) :
  NoDup (ids (table w)) ->
  NoDup (ids (table (snd (get_all_samples w))))
  /\ NoDup (ids (table (snd (add_sample data w))))
  /\ NoDup (ids (table (snd (get_sample sample_id w))))
  /\ NoDup (ids (table (snd (update_sample sample_id data w))))
  /\ NoDup (ids (table (snd (delete_sample sample_id w)))).
Proof.
  intros H. split; [|split; [|split; [|split]]].
  - replace (table (snd (get_all_samples w))) with (table w); [exact H|].
    paths_list w; reflexivity.
  - destruct (add_sample_cases data w) as [[-> _]|(r & _ & -> & Hid & Hex & _)];
      [exact H|].
    unfold ids. rewrite map_app. apply NoDup_snoc; [exact H|].
    simpl. rewrite Hid. now apply no_row_has_id.
  - replace (table (snd (get_sample sample_id w))) with (table w); [exact H|].
    paths_get w; reflexivity.
  - destruct (update_sample_table sample_id data w) as (f & Hf & ->).
    replace (ids (map (fun r => if has_id sample_id r then f r else r) (table w)))
      with (ids (table w)); [exact H|].
    unfold ids. rewrite map_map. apply map_ext. intros r.
    destruct (has_id sample_id r); [now rewrite Hf|reflexivity].
  - destruct (delete_sample_cases sample_id w) as [[-> _]|(_ & -> & _)];
      [exact H|now apply NoDup_ids_filter].
Qed.

(** X19: after a delete that answered the success envelope, a get of the
    same id answers 404 and so does a second delete. *)
Theorem delete_then_not_found (sample_id : Z) (w : world) :
  fst (delete_sample sample_id w) = deleted ->
  fault w Sql.select_one [JInt sample_id] = None ->
  let w1 := snd (delete_sample sample_id w) in
  fst (get_sample sample_id w1) = jsonify_error "Sample not found" 404
  /\ fst (delete_sample sample_id w1) = jsonify_error "Sample not found" 404.
Proof.
  intros Hd Hsel w1.
  destruct (proj2 (proj2 (proj2 (proj2 environment_kept))) sample_id w) as [Hup Hfault].
  destruct (delete_sample_cases sample_id w) as [[_ Hs]|(_ & Ht & _ & Hup0 & Hf)].
  { rewrite Hd in Hs. now elim Hs. }
  fold w1 in Hup, Hfault, Ht. rewrite Hup0 in Hup. clearbody w1.
  assert (Hnone : filter (has_id sample_id) (table w1) = []).
  { rewrite Ht. clear. induction (table w) as [|r t IH]; simpl; [reflexivity|].
    destruct (has_id sample_id r) eqn:E; simpl; [exact IH|]. now rewrite E. }
  split.
  - run. rewrite Hup. cbv beta iota.
    unfold cur_execute. cbn [fault table next_id txn db_up log open_sessions].
    rewrite Hfault, Hsel, parse_select_one. cbn. now rewrite Hnone.
  - run. rewrite Hup. cbv beta iota.
    unfold cur_execute. cbn [fault table next_id txn db_up log open_sessions].
    rewrite Hfault, Hf, parse_delete. cbn. rewrite rowcount_zero. now rewrite Hnone.
Qed.

(** X20: after a create that answered the success envelope with id [i], the
    listing holds the entries it held before, in the same order, followed
    by one entry with id [i]. *)
Theorem create_then_listed (data : json) (w : world) (i : Z) :
  fst (add_sample data w) = created i ->
  fault w Sql.select_all [] = None ->
  exists r,
    sample_id r = i
    /\ fst (get_all_samples (snd (add_sample data w)))
       = jsonify [("success", JBool true);
                  ("data", JArr (map sample_json (table w) ++ [sample_json r]))].
Proof.
  intros Hc Hsel.
  destruct (proj1 (proj2 environment_kept) data w) as [Hup Hfault].
  destruct (add_sample_cases data w) as [[_ Hs]|(r & Hr & Ht & _ & _ & Hup0)].
  { rewrite Hc in Hs. now elim Hs. }
  rewrite Hc in Hr. injection Hr as Hi. rewrite Hup0 in Hup.
  generalize dependent (snd (add_sample data w)). intros w1 Hup Hfault Ht.
  exists r. split; [congruence|].
  run. rewrite Hup. cbv beta iota.
  unfold cur_execute. cbn [fault table next_id txn db_up log open_sessions].
  rewrite Hfault, Hsel, parse_select_all. cbn. rewrite Ht, map_app. reflexivity.
Qed.

End Further.

(** ** The further properties on concrete requests *)

Lemma get_all_samples_answers_witness :
  fst (@get_all_samples Example.codec Example.one_row_world)
  = jsonify [("success", JBool true);
             ("data", JArr [sample_json Example.leaf_row])].
Proof.
  exact (proj1 (@get_all_samples_answers Example.codec Example.one_row_world
                  eq_refl eq_refl)).
Defined.

Lemma get_sample_answers_witness :
  fst (@get_sample Example.codec 1 Example.one_row_world)
  = jsonify [("success", JBool true); ("data", sample_json Example.leaf_row)]
  /\ fst (@get_sample Example.codec 3 Example.one_row_world)
     = jsonify_error "Sample not found" 404.
Proof.
  split.
  - exact (proj1 (@get_sample_answers Example.codec 1 Example.one_row_world
                    eq_refl eq_refl)).
  - exact (proj1 (@get_sample_answers Example.codec 3 Example.one_row_world
                    eq_refl eq_refl)).
Defined.

Lemma unreachable_store_is_server_error_witness :
  db_up Example.unreachable_world = false
  /\ fst (@delete_sample Example.codec 1 Example.unreachable_world) = connection_failed
  /\ fst (@add_sample Example.codec Example.leaf_payload Example.unreachable_world)
     = connection_failed.
Proof.
  split; [reflexivity|].
  pose proof (@unreachable_store_is_server_error Example.codec 1 Example.leaf_payload
                Example.unreachable_world eq_refl) as (_ & _ & _ & Hd & Ha).
  split; [now rewrite Hd|]. now rewrite (Ha eq_refl).
Defined.

Lemma store_failure_is_surfaced_witness :
  fst (@get_all_samples Example.codec Example.failing_world)
  = jsonify_error "server closed the connection unexpectedly" 500
  /\ table (snd (@delete_sample Example.codec 1 Example.failing_world))
     = [Example.leaf_row].
Proof.
  pose proof (@store_failure_is_surfaced Example.codec 1 []
                "server closed the connection unexpectedly"
                Example.failing_world eq_refl) as (Hl & _ & Hd & _).
  split; [exact (Hl eq_refl)|exact (proj2 (Hd eq_refl))].
Defined.

Lemma failure_leaves_table_unchanged_witness :
  status (fst (@delete_sample Example.codec 3 Example.one_row_world)) <> 200
  /\ table (snd (@delete_sample Example.codec 3 Example.one_row_world))
     = [Example.leaf_row].
Proof.
  assert (H : status (fst (@delete_sample Example.codec 3 Example.one_row_world)) <> 200)
    by (vm_compute; discriminate).
  split; [exact H|].
  exact (proj2 (proj2 (proj2 (proj2 (@failure_leaves_table_unchanged Example.codec))))
           3 Example.one_row_world H).
Defined.

Lemma sequence_body_fails_at_subscript_witness :
  is_sequence (JArr (map JStr required_fields)) = true
  /\ Py.all_in required_fields (JArr (map JStr required_fields)) = inr true
  /\ exists msg,
       fst (@add_sample Example.codec (JArr (map JStr required_fields))
                        Example.one_row_world) = jsonify_error msg 500.
Proof.
  split; [reflexivity|]. split; [reflexivity|].
  destruct (proj1 (@sequence_body_fails_at_subscript Example.codec 1
                     (JArr (map JStr required_fields)) Example.one_row_world eq_refl)
              eq_refl eq_refl) as (msg & _ & H & _).
  exists msg. exact H.
Defined.

Lemma other_keys_are_ignored_witness :
  @update_sample Example.codec 1 (JObj [("location_id", JInt 9)]) Example.one_row_world
  = @update_sample Example.codec 1
      (JObj [("unit", JStr "cm"); ("location_id", JInt 9); ("sample_id", JInt 77)])
      Example.one_row_world.
Proof.
  refine (proj2 (@other_keys_are_ignored Example.codec 1
                   [("location_id", JInt 9)]
                   [("unit", JStr "cm"); ("location_id", JInt 9); ("sample_id", JInt 77)]
                   Example.one_row_world _)).
  intros k Hk. simpl in Hk.
  repeat (destruct Hk as [<-|Hk]; [reflexivity|]). destruct Hk.
Defined.

Lemma update_keeps_rows_and_ids_witness :
  In Example.leaf_row
     (table (snd (@update_sample Example.codec 7 (JObj [("location_id", JInt 9)])
                                 Example.one_row_world))).
Proof.
  refine (proj2 (proj2 (@update_keeps_rows_and_ids Example.codec 7
                          (JObj [("location_id", JInt 9)]) Example.one_row_world))
            Example.leaf_row _ _).
  - left. reflexivity.
  - vm_compute. discriminate.
Defined.

Lemma update_of_unknown_id_changes_nothing_witness :
  fst (@update_sample Example.codec 42 (JObj [("location_id", JInt 9)])
                      Example.one_row_world) = updated
  /\ table (snd (@update_sample Example.codec 42 (JObj [("location_id", JInt 9)])
                                Example.one_row_world)) = [Example.leaf_row].
Proof.
  split; [reflexivity|].
  exact (@update_of_unknown_id_changes_nothing Example.codec 42
           (JObj [("location_id", JInt 9)]) Example.one_row_world eq_refl).
Defined.

Lemma update_changes_only_supplied_columns_witness :
  table (snd (@update_sample Example.codec 1 (JObj [("location_id", JInt 9)])
                             Example.one_row_world))
  = [mkRow 1 (mkDate 2024 1 1) (JObj [("type", JStr "leaf")])
           (JObj [("lat", JInt 1); ("lon", JInt 2)])
           (JObj [("humidity", JInt 80)]) 9 7].
Proof.
  refine (proj1 (@update_changes_only_supplied_columns Example.codec 1
                   [("location_id", JInt 9)] Example.one_row_world
                   [(CLocationId, CellInt 9)] _ eq_refl eq_refl eq_refl)).
  vm_compute. discriminate.
Defined.

Lemma delete_removes_only_that_id_witness :
  ~ In 1 (ids (table (snd (@delete_sample Example.codec 1 Example.one_row_world)))).
Proof.
  exact (proj2 (proj2 (@delete_removes_only_that_id Example.codec 1
                         Example.one_row_world)) eq_refl).
Defined.

Lemma ids_stay_distinct_witness :
  NoDup (ids (table (snd (@add_sample Example.codec Example.leaf_payload
                                      Example.one_row_world)))).
Proof.
  refine (proj1 (proj2 (@ids_stay_distinct Example.codec 1 Example.leaf_payload
                          Example.one_row_world _))).
  vm_compute. constructor; [simpl; tauto|constructor].
Defined.

Lemma delete_then_not_found_witness :
  fst (@get_sample Example.codec 1
         (snd (@delete_sample Example.codec 1 Example.one_row_world)))
  = jsonify_error "Sample not found" 404.
Proof.
  exact (proj1 (@delete_then_not_found Example.codec 1 Example.one_row_world
                  eq_refl eq_refl)).
Defined.

Lemma create_then_listed_witness :
  exists r,
    sample_id r = 2
    /\ fst (@get_all_samples Example.codec
              (snd (@add_sample Example.codec Example.leaf_payload
                                Example.one_row_world)))
       = jsonify [("success", JBool true);
                  ("data", JArr [sample_json Example.leaf_row; sample_json r])].
Proof.
  exact (@create_then_listed Example.codec Example.leaf_payload Example.one_row_world 2
           eq_refl eq_refl).
Defined.
